(** * Realpolitik worker: deduplication, incident grouping, event merging

    A shallow embedding of the pure core of [worker/main.py] and
    [worker/sources/rss_feeds.py].

    Conventions of the embedding.
    - A Python [str] is a Rocq [string] read as a sequence of code points
      below 256; the character classes used by [str.lower], [str.strip] and
      the [re] module are written out for exactly that range.
    - A Python [float] is a binary64 [PrimFloat.float].
    - A Python [dict] whose iteration order is observable is an association
      list in insertion order; a [set] used only for membership is a [gset].
    - A call that can raise returns an [outcome].
    - Library calls that are not part of the repository ([hashlib],
      [datetime.fromisoformat], the Gemini client) are section variables. *)

From Stdlib Require Import ZArith Floats Ascii String Lia DecimalString.
From stdpp Require Import base list strings gmap sorting.

Set Warnings "-inexact-float,-clear-no-such-hyp".

Local Open Scope Z_scope.

(** ** Exceptions *)

Inductive exn : Type :=
  | IndexError
  | ValueError
  | TypeError
  | OverflowError.

Inductive outcome (A : Type) : Type :=
  | Returned (a : A)
  | Raised (e : exn).

Arguments Returned {A} a.
Arguments Raised {A} e.

#[global] Instance outcome_ret : MRet outcome := fun A a => Returned a.

#[global] Instance outcome_bind : MBind outcome := fun A B k m =>
  match m with
  | Returned a => k a
  | Raised e => Raised e
  end.

(** ** Python strings *)

Module Py.

Definition code (c : ascii) : N := N_of_ascii c.

Definition between (lo hi n : N) : bool := ((lo <=? n) && (n <=? hi))%N.

(** [str.isspace] on one code point; also the class [\s] of [re]. *)
Definition isspace (c : ascii) : bool :=
  let n := code c in
  between 9 13 n || between 28 32 n || (n =? 133)%N || (n =? 160)%N.

Definition is_ascii_letter (c : ascii) : bool :=
  let n := code c in between 65 90 n || between 97 122 n.

(** The class [\w] of [re] on a [str] pattern: alphanumeric or underscore. *)
Definition is_word_char (c : ascii) : bool :=
  let n := code c in
  is_ascii_letter c || between 48 57 n || (n =? 95)%N
  || (n =? 170)%N || (n =? 178)%N || (n =? 179)%N || (n =? 181)%N
  || (n =? 185)%N || (n =? 186)%N || between 188 190 n
  || between 192 214 n || between 216 246 n || between 248 255 n.

Definition lower_char (c : ascii) : ascii :=
  let n := code c in
  if between 65 90 n || (between 192 222 n && negb (n =? 215)%N)
  then ascii_of_N (n + 32) else c.

Fixpoint lower (s : string) : string :=
  match s with
  | EmptyString => EmptyString
  | String c s' => String (lower_char c) (lower s')
  end.

Fixpoint lstrip (s : string) : string :=
  match s with
  | EmptyString => EmptyString
  | String c s' => if isspace c then lstrip s' else s
  end.

Definition rev (s : string) : string :=
  string_of_list_ascii (List.rev (list_ascii_of_string s)).

Definition rstrip (s : string) : string := rev (lstrip (rev s)).

Definition strip (s : string) : string := rstrip (lstrip s).

(** [needle in hay] *)
Fixpoint contains (needle hay : string) : bool :=
  String.prefix needle hay
  || match hay with
     | EmptyString => false
     | String _ hay' => contains needle hay'
     end.

(** [s.split(sep)[0]] for a one-character separator. *)
Fixpoint before_char (sep : ascii) (s : string) : string :=
  match s with
  | EmptyString => EmptyString
  | String c s' => if Ascii.eqb c sep then EmptyString else String c (before_char sep s')
  end.

Fixpoint has_char (sep : ascii) (s : string) : bool :=
  match s with
  | EmptyString => false
  | String c s' => Ascii.eqb c sep || has_char sep s'
  end.

(** [s.replace(old, new)] for a one-character [old]. *)
Fixpoint replace_char (old : ascii) (new : string) (s : string) : string :=
  match s with
  | EmptyString => EmptyString
  | String c s' =>
      if Ascii.eqb c old then new +:+ replace_char old new s'
      else String c (replace_char old new s')
  end.

(** [sep.join(parts)] *)
Fixpoint join (sep : string) (parts : list string) : string :=
  match parts with
  | [] => EmptyString
  | [p] => p
  | p :: rest => p +:+ sep +:+ join sep rest
  end.

(** [d.get(k)] on a dict kept in insertion order. *)
Fixpoint dict_get {V} (k : string) (d : list (string * V)) : option V :=
  match d with
  | [] => None
  | (k', v) :: d' => if String.eqb k' k then Some v else dict_get k d'
  end.

(** [sorted(xs, key=...)]: the stable sort, written as an insertion sort.
    [le a b] is [key a <= key b]; an element is placed before the first
    element of the sorted tail that it does not exceed, which keeps equal
    keys in their input order. *)
Section Sorted.
Context {A : Type} (le : A -> A -> bool).

Fixpoint insert_sorted (x : A) (l : list A) : list A :=
  match l with
  | [] => [x]
  | y :: l' => if le x y then x :: y :: l' else y :: insert_sorted x l'
  end.

Fixpoint sorted (l : list A) : list A :=
  match l with
  | [] => []
  | x :: l' => insert_sorted x (sorted l')
  end.
End Sorted.

End Py.

(** ** Source credibility ([main.py], [SOURCE_CREDIBILITY]) *)

Definition SOURCE_CREDIBILITY : list (string * Z) :=
  [ ("associated press", 3); ("ap", 3); ("ap news", 3);
    ("reuters", 3);
    ("afp", 3); ("agence france-presse", 3);
    ("bbc", 3); ("bbc news", 3); ("bbc world", 3);
    ("al jazeera", 3); ("al jazeera english", 3);
    ("npr", 3);
    ("pbs", 3); ("pbs newshour", 3);
    ("the guardian", 2); ("guardian", 2);
    ("new york times", 2); ("nyt", 2); ("ny times", 2);
    ("washington post", 2);
    ("the economist", 2); ("economist", 2);
    ("financial times", 2); ("ft", 2);
    ("wall street journal", 2); ("wsj", 2);
    ("deutsche welle", 2); ("dw", 2);
    ("france24", 2); ("france 24", 2);
    ("abc news", 2);
    ("cbs news", 2);
    ("nbc news", 2);
    ("cnn", 2);
    ("politico", 2);
    ("the hill", 2);
    ("axios", 2);
    ("south china morning post", 1); ("scmp", 1);
    ("times of israel", 1);
    ("the hindu", 1);
    ("kyiv independent", 1);
    ("jerusalem post", 1);
    ("haaretz", 1);
    ("japan times", 1);
    ("straits times", 1);
    ("the irish times", 1);
    ("yahoo news", 1); ("yahoo", 1);
    ("business insider", 1);
    ("new york magazine", 1);
    ("the new yorker", 1);
    ("the new republic", 1);
    ("foreign policy", 1);
    ("foreign affairs", 1);
    ("sputnik", -1); ("sputnikglobe", -1); ("sputnik news", -1);
    ("rt", -1); ("russia today", -1);
    ("global times", -1);
    ("press tv", -1);
    ("activistpost", -1);
    ("zerohedge", -1);
    ("infowars", -1);
    ("natural news", -1);
    ("the gateway pundit", -1);
    ("breitbart", -1);
    ("yahoo entertainment", -1);
    ("dalenareporters", -1);
    ("freerepublic", -1) ].

(** The loop over [SOURCE_CREDIBILITY.items()]: the first key, in table
    order, that is contained in the name or contains it. *)
Fixpoint partial_match (name_lower : string) (table : list (string * Z)) : option Z :=
  match table with
  | [] => None
  | (known_source, score) :: table' =>
      if Py.contains known_source name_lower || Py.contains name_lower known_source
      then Some score
      else partial_match name_lower table'
  end.

(** [source_name] is [None] when the article carries no name. *)
Definition get_source_credibility (source_name : option string) : Z :=
  match source_name with
  | None => 0
  | Some EmptyString => 0
  | Some name =>
      let name_lower := Py.strip (Py.lower name) in
      match Py.dict_get name_lower SOURCE_CREDIBILITY with
      | Some score => score
      | None =>
          match partial_match name_lower SOURCE_CREDIBILITY with
          | Some score => score
          | None => 0
          end
      end
  end.

Definition _get_credibility_label (score : Z) : string :=
  if 3 <=? score then "WIRE SERVICE"
  else if 2 <=? score then "QUALITY OUTLET"
  else if 1 <=? score then "REGIONAL"
  else "UNVERIFIED".

(** ** Validators and models *)

Definition clamp_severity (v : Z) : Z := Z.max 1 (Z.min 10 v).

(** The three [re.sub] calls of [_clean_text]. *)
Definition keeps_char (c : ascii) : bool :=
  let n := Py.code c in Py.between 0 127 n || Py.between 192 255 n.

Fixpoint drop_broken (s : string) : string :=
  match s with
  | EmptyString => EmptyString
  | String c s' => if keeps_char c then String c (drop_broken s') else drop_broken s'
  end.

(** [re.sub(r'\s+', ' ', text)]: every maximal run of white space becomes
    one blank. [in_run] tells that the previous character was white space. *)
Fixpoint squeeze_spaces_from (in_run : bool) (s : string) : string :=
  match s with
  | EmptyString => EmptyString
  | String c s' =>
      if Py.isspace c then
        if in_run then squeeze_spaces_from true s'
        else String " " (squeeze_spaces_from true s')
      else String c (squeeze_spaces_from false s')
  end.

Definition is_trailing_junk (c : ascii) : bool :=
  Ascii.eqb c "," || Ascii.eqb c ";" || Ascii.eqb c ":" || Py.isspace c.

Fixpoint drop_leading_junk (s : string) : string :=
  match s with
  | EmptyString => EmptyString
  | String c s' => if is_trailing_junk c then drop_leading_junk s' else s
  end.

(** [re.sub(r'[,;:\s]+$', '', text)] *)
Definition drop_trailing_junk (s : string) : string :=
  Py.rev (drop_leading_junk (Py.rev s)).

Definition _clean_text (text : string) : string :=
  let text := Py.strip text in
  let text := drop_broken text in
  let text := squeeze_spaces_from false text in
  let text := drop_trailing_junk text in
  Py.strip text.

Module EventSource.
Record t : Type := Build {
  id : string;
  headline : string;
  summary : string;
  source_name : string;
  source_url : string;
  timestamp : string
}.
End EventSource.

Module SynthesizedEvent.
Record t : Type := Build {
  title : string;
  summary : string;
  fallout_prediction : string;
  severity : Z
}.

(** The constructor as pydantic runs it: [validate_severity] before, and
    [clean_text_fields] after, the fields are set. *)
Definition make (title summary fallout_prediction : string) (severity : Z) : t :=
  {| title := _clean_text title;
     summary := _clean_text summary;
     fallout_prediction := _clean_text fallout_prediction;
     severity := clamp_severity severity |}.
End SynthesizedEvent.

(** ** Synthesis ([synthesize_incident]) *)

(** [(-cred, s.timestamp)], and the order of Python tuples on it. *)
Definition source_sort_key (s : EventSource.t) : Z * string :=
  (- get_source_credibility (Some (EventSource.source_name s)), EventSource.timestamp s).

Definition key_le (a b : Z * string) : bool :=
  (a.1 <? b.1) || ((a.1 =? b.1) && String.leb a.2 b.2).

Definition sort_sources (sources : list EventSource.t) : list EventSource.t :=
  Py.sorted (fun a b => key_le (source_sort_key a) (source_sort_key b)) sources.

(** The model call with its 60 second budget, seen from the caller:
    [Some] for a validated answer, [None] for a time-out, an empty or an
    invalid answer, or any other exception. The argument is the sorted list
    the prompt's timeline is printed from. *)
Definition generate := list EventSource.t -> option SynthesizedEvent.t.

Definition synthesize_incident (client : generate) (sources : list EventSource.t)
    : outcome SynthesizedEvent.t :=
  let sorted_sources := sort_sources sources in
  match client sorted_sources with
  | Some synthesized => Returned synthesized
  | None =>
      match sorted_sources with
      | [] => Raised IndexError
      | src :: _ =>
          Returned (SynthesizedEvent.make (EventSource.headline src)
                      (EventSource.summary src) "" 5)
      end
  end.

(** ** Python numbers *)

Module PyNum.

(** [float(z)], correctly rounded; an integer beyond the largest finite
    double raises. *)
Definition float_of_int (z : Z) : outcome float :=
  let f := SF2Prim (binary_normalize prec emax z 0 false) in
  if PrimFloat.is_infinity f then Raised OverflowError else Returned f.

(** [a / b] on two integers, [b] positive: the correctly rounded quotient. *)
Definition int_truediv (a : Z) (b : positive) : float :=
  match a with
  | Z0 => 0%float
  | Zpos p => SF2Prim (SFdiv prec emax (S754_finite false p 0) (S754_finite false b 0))
  | Zneg p => SF2Prim (SFdiv prec emax (S754_finite true p 0) (S754_finite false b 0))
  end.

(** The integer nearest to [m * 2^e], ties to the even one. *)
Definition round_half_even (m e : Z) : Z :=
  if 0 <=? e then m * 2 ^ e
  else
    let d := 2 ^ (- e) in
    let q := m / d in
    let r := m mod d in
    match Z.compare (2 * r) d with
    | Lt => q
    | Gt => q + 1
    | Eq => if Z.even q then q else q + 1
    end.

(** [round(x)] with no digits argument. *)
Definition round (x : float) : outcome Z :=
  match Prim2SF x with
  | S754_zero _ => Returned 0
  | S754_finite s m e =>
      let n := round_half_even (Zpos m) e in
      Returned (if s then - n else n)
  | S754_infinity _ => Raised OverflowError
  | S754_nan => Raised ValueError
  end.

Definition gt (x y : float) : bool := PrimFloat.ltb y x.
Definition ge (x y : float) : bool := PrimFloat.leb y x.

(** [float(n)] for a length. *)
Definition float_of_len (n : nat) : float :=
  SF2Prim (binary_normalize prec emax (Z.of_nat n) 0 false).

Definition decimal (n : Z) : string :=
  NilZero.string_of_uint (N.to_uint (Z.to_N n)).

Definition two_digits (n : Z) : string :=
  String (ascii_of_N (48 + Z.to_N (n / 10 mod 10)))
    (String (ascii_of_N (48 + Z.to_N (n mod 10))) EmptyString).

(** [f"{x:.2f}"]: the decimal with two places nearest to the exact value
    of [x], ties to even. *)
Definition format_2f (x : float) : string :=
  match Prim2SF x with
  | S754_nan => "nan"
  | S754_infinity s => if s then "-inf" else "inf"
  | S754_zero s => if s then "-0.00" else "0.00"
  | S754_finite s m e =>
      let h := round_half_even (Zpos m * 100) e in
      (if s then "-" else "") +:+ decimal (h / 100) +:+ "." +:+ two_digits h
  end.

End PyNum.

(** ** Article deduplication ([sources/rss_feeds.py]) *)

(** An article as [fetch_rss_articles] emits it; [source_name] is the value
    under ["source"]["name"], which the news API may leave null. *)
Module Article.
Record t : Type := Build {
  title : string;
  description : string;
  url : string;
  source_name : option string;
  publishedAt : string
}.
End Article.

Definition _normalize_url (url : string) : string :=
  if Py.has_char "?" url then Py.before_char "?" url else url.

Definition _STOP_WORDS : gset string :=
  list_to_set
    [ "the"; "a"; "an"; "and"; "or"; "but"; "in"; "on"; "at"; "to"; "for";
      "of"; "with"; "by"; "from"; "as"; "is"; "was"; "are"; "were"; "been";
      "be"; "have"; "has"; "had"; "do"; "does"; "did"; "will"; "would";
      "could"; "should"; "may"; "might"; "must"; "shall"; "can"; "need";
      "says"; "said"; "say"; "tells"; "told"; "report"; "reports"; "reported";
      "news"; "breaking"; "update"; "latest"; "new"; "after"; "before" ].

Definition _WORD_NORMALIZE : list (string * string) :=
  [ ("ukraine", "ukraine"); ("ukrainian", "ukraine"); ("ukrainians", "ukraine"); ("kyiv", "ukraine");
    ("russia", "russia"); ("russian", "russia"); ("russians", "russia"); ("moscow", "russia"); ("putin", "russia");
    ("israel", "israel"); ("israeli", "israel"); ("israelis", "israel"); ("idf", "israel");
    ("gaza", "palestine"); ("palestinian", "palestine"); ("palestinians", "palestine"); ("hamas", "palestine");
    ("china", "china"); ("chinese", "china"); ("beijing", "china");
    ("iran", "iran"); ("iranian", "iran"); ("tehran", "iran");
    ("syria", "syria"); ("syrian", "syria"); ("damascus", "syria");
    ("attack", "attack"); ("attacks", "attack"); ("attacked", "attack");
    ("strike", "strike"); ("strikes", "strike"); ("struck", "strike");
    ("kill", "kill"); ("kills", "kill"); ("killed", "kill"); ("killing", "kill");
    ("force", "force"); ("forces", "force");
    ("troop", "troop"); ("troops", "troop");
    ("missile", "missile"); ("missiles", "missile"); ("rocket", "missile"); ("rockets", "missile");
    ("bomb", "bomb"); ("bombs", "bomb"); ("bombing", "bomb"); ("bombed", "bomb");
    ("protest", "protest"); ("protests", "protest"); ("protester", "protest"); ("protesters", "protest") ].

(** [re.findall(r'\b[a-zA-Z]{3,}\b', s)]: a match starts at the beginning of
    a maximal run of word characters and has to end at its end, so the
    matches are the runs made of at least three ASCII letters. [run] holds
    the current run, last character first. *)
Definition emit_run (run : list ascii) : list string :=
  if forallb Py.is_ascii_letter run && (3 <=? length run)%nat
  then [string_of_list_ascii (List.rev run)] else [].

Fixpoint findall_words (run : list ascii) (s : string) : list string :=
  match s with
  | EmptyString => emit_run run
  | String c s' =>
      if Py.is_word_char c then findall_words (c :: run) s'
      else emit_run run ++ findall_words [] s'
  end.

Fixpoint normalize_words (words : list string) : list string :=
  match words with
  | [] => []
  | w :: words' =>
      if decide (w ∈ _STOP_WORDS) then normalize_words words'
      else default w (Py.dict_get w _WORD_NORMALIZE) :: normalize_words words'
  end.

Definition _extract_keywords (title : string) : gset string :=
  let words := findall_words [] (Py.lower title) in
  list_to_set (normalize_words words).

(** [intersection / union if union > 0 else 0] *)
Definition jaccard (a b : gset string) : float :=
  let intersection := size (a ∩ b) in
  let union := size (a ∪ b) in
  match Z.of_nat union with
  | Zpos u => PyNum.int_truediv (Z.of_nat intersection) u
  | _ => 0%float
  end.

Section Dedupe.

(** [hashlib.md5(s.encode()).hexdigest()[:16]] *)
Variable md5_hex16 : string -> string.

Definition _title_hash (title : string) : string :=
  let keywords := _extract_keywords title in
  let normalized := Py.join " " (Py.sorted String.leb (elements keywords)) in
  md5_hex16 normalized.

Definition titles_similar (title_a title_b : string) (threshold : float) : bool :=
  let kw_a := _extract_keywords title_a in
  let kw_b := _extract_keywords title_b in
  if decide (kw_a = ∅ ∨ kw_b = ∅) then false
  else PyNum.ge (jaccard kw_a kw_b) threshold.

Record seen : Type := Seen {
  seen_urls : gset string;
  seen_title_hashes : gset string;
  seen_keywords : list (gset string)
}.

Variable similarity_threshold : float.

(** One pass of the inner [for seen_kw in seen_keywords] loop: [true] when
    it leaves through [break]. *)
Definition similar_to_seen (keywords : gset string) (kws : list (gset string)) : bool :=
  existsb
    (fun seen_kw =>
       bool_decide (0 < size (keywords ∪ seen_kw))%nat
       && PyNum.ge (jaccard keywords seen_kw) similarity_threshold)
    kws.

(** The main loop; the result is the list [unique] grows into. *)
Fixpoint dedupe_loop (st : seen) (articles : list Article.t) : list Article.t :=
  match articles with
  | [] => []
  | article :: rest =>
      let url_normalized := _normalize_url (Article.url article) in
      if decide (url_normalized ∈ seen_urls st) then dedupe_loop st rest
      else
        let title_h := _title_hash (Article.title article) in
        if decide (title_h ∈ seen_title_hashes st) then dedupe_loop st rest
        else
          let keywords := _extract_keywords (Article.title article) in
          if decide (keywords ≠ ∅) then
            if similar_to_seen keywords (seen_keywords st) then dedupe_loop st rest
            else
              article ::
              dedupe_loop
                {| seen_urls := seen_urls st ∪ {[url_normalized]};
                   seen_title_hashes := seen_title_hashes st ∪ {[title_h]};
                   seen_keywords := seen_keywords st ++ [keywords] |}
                rest
          else
            article ::
            dedupe_loop
              {| seen_urls := seen_urls st ∪ {[url_normalized]};
                 seen_title_hashes := seen_title_hashes st ∪ {[title_h]};
                 seen_keywords := seen_keywords st |}
              rest
  end.

Definition dedupe_articles (articles : list Article.t) : list Article.t :=
  dedupe_loop {| seen_urls := ∅; seen_title_hashes := ∅; seen_keywords := [] |} articles.

End Dedupe.

(** ** Dates and times ([datetime]) *)

Module datetime.

(** [tzinfo] is the UTC offset in microseconds, [None] for a naive value. *)
Record t : Type := Build {
  year : Z;
  month : Z;
  day : Z;
  hour : Z;
  minute : Z;
  second : Z;
  microsecond : Z;
  tzinfo : option Z
}.

Definition is_leap (y : Z) : bool :=
  (y mod 4 =? 0) && (negb (y mod 100 =? 0) || (y mod 400 =? 0)).

Definition days_in_month (y m : Z) : Z :=
  if m =? 2 then (if is_leap y then 29 else 28)
  else if (m =? 4) || (m =? 6) || (m =? 9) || (m =? 11) then 30
  else 31.

Definition days_before_year (y : Z) : Z :=
  let y' := y - 1 in y' * 365 + y' / 4 - y' / 100 + y' / 400.

Definition days_before_month (y m : Z) : Z :=
  fold_right Z.add 0 (map (days_in_month y) (map Z.of_nat (seq 1 (Z.to_nat (m - 1))))).

Definition ymd2ord (y m d : Z) : Z :=
  days_before_year y + days_before_month y m + d.

Definition day_micros : Z := 86400 * 1000000.
Definition hour_micros : Z := 3600 * 1000000.

(** Microseconds of the wall-clock reading since the start of day zero. *)
Definition wall (dt : t) : Z :=
  ymd2ord (year dt) (month dt) (day dt) * day_micros
  + ((hour dt * 60 + minute dt) * 60 + second dt) * 1000000
  + microsecond dt.

Definition valid (dt : t) : Prop :=
  1 <= year dt <= 9999 /\ 1 <= month dt <= 12
  /\ 1 <= day dt <= days_in_month (year dt) (month dt)
  /\ 0 <= hour dt < 24 /\ 0 <= minute dt < 60 /\ 0 <= second dt < 60
  /\ 0 <= microsecond dt < 1000000
  /\ match tzinfo dt with
     | None => True
     | Some off => - day_micros < off < day_micros
     end.

(** [a - b] as a [timedelta], in microseconds. *)
Definition sub (a b : t) : outcome Z :=
  match tzinfo a, tzinfo b with
  | None, None => Returned (wall a - wall b)
  | Some oa, Some ob => Returned ((wall a - oa) - (wall b - ob))
  | _, _ => Raised TypeError
  end.

(** [td.total_seconds()] *)
Definition total_seconds (td : Z) : float := PyNum.int_truediv td 1000000.

(** What datetime comparison and the result of [dt + timedelta] depend on:
    the wall-clock microseconds and the offset. *)
Record stamp : Type := Stamp { stamp_wall : Z; stamp_tz : option Z }.

Definition min_wall : Z := ymd2ord 1 1 1 * day_micros.
Definition max_wall : Z := ymd2ord 9999 12 31 * day_micros + day_micros - 1.

(** [dt + timedelta(hours=h)] *)
Definition add_hours (dt : t) (h : Z) : outcome stamp :=
  let w := wall dt + h * hour_micros in
  if (min_wall <=? w) && (w <=? max_wall)
  then Returned {| stamp_wall := w; stamp_tz := tzinfo dt |}
  else Raised OverflowError.

(** The instant two stamps of the same kind are compared by. *)
Definition instant (s : stamp) : Z :=
  match stamp_tz s with
  | None => stamp_wall s
  | Some off => stamp_wall s - off
  end.

Definition is_aware (s : stamp) : bool :=
  match stamp_tz s with Some _ => true | None => false end.

(** Zero-padded decimal of a given width. *)
Definition digit (n : Z) : ascii := ascii_of_N (48 + Z.to_N (n mod 10)).

Fixpoint pad (width : nat) (n : Z) : string :=
  match width with
  | O => EmptyString
  | S w => pad w (n / 10) +:+ String (digit n) EmptyString
  end.

(** [_format_offset] *)
Definition format_offset (off : option Z) : string :=
  match off with
  | None => EmptyString
  | Some off =>
      let sign := if off <? 0 then "-" else "+" in
      let a := Z.abs off in
      let hh := a / hour_micros in
      let mm := (a mod hour_micros) / 60000000 in
      let ss := (a mod 60000000) / 1000000 in
      let us := a mod 1000000 in
      sign +:+ pad 2 hh +:+ ":" +:+ pad 2 mm
      +:+ (if (ss =? 0) && (us =? 0) then EmptyString
           else ":" +:+ pad 2 ss
                +:+ (if us =? 0 then EmptyString else "." +:+ pad 6 us))
  end.

Definition isoformat (dt : t) : string :=
  pad 4 (year dt) +:+ "-" +:+ pad 2 (month dt) +:+ "-" +:+ pad 2 (day dt)
  +:+ "T" +:+ pad 2 (hour dt) +:+ ":" +:+ pad 2 (minute dt) +:+ ":" +:+ pad 2 (second dt)
  +:+ (if microsecond dt =? 0 then EmptyString else "." +:+ pad 6 (microsecond dt))
  +:+ format_offset (tzinfo dt).

End datetime.

(** ** Identifiers ([generate_source_id], [generate_incident_id]) *)

Definition GROUPING_DISTANCE_DEGREES : list (string * float) :=
  [ ("MILITARY", 0.1%float); ("DIPLOMACY", 0.5%float);
    ("ECONOMY", 0.5%float); ("UNREST", 0.3%float) ].
Definition GROUPING_DISTANCE_DEFAULT : float := 0.5%float.
Definition GROUPING_TIME_HOURS : Z := 12.

Definition get_grouping_distance (category : string) : float :=
  default GROUPING_DISTANCE_DEFAULT (Py.dict_get category GROUPING_DISTANCE_DEGREES).

(** [timestamp.replace("Z", "+00:00")] *)
Definition utc_suffix (timestamp : string) : string :=
  Py.replace_char "Z" "+00:00" timestamp.

(** [round(x / distance) * distance] *)
Definition grid (x distance : float) : outcome float :=
  k ← PyNum.round (x / distance)%float;
  fk ← PyNum.float_of_int k;
  mret (fk * distance)%float.

(** [dt.replace(hour=(dt.hour // 12) * 12, minute=0, second=0, microsecond=0)] *)
Definition time_bucket (dt : datetime.t) : datetime.t :=
  {| datetime.year := datetime.year dt;
     datetime.month := datetime.month dt;
     datetime.day := datetime.day dt;
     datetime.hour := (datetime.hour dt / 12) * 12;
     datetime.minute := 0;
     datetime.second := 0;
     datetime.microsecond := 0;
     datetime.tzinfo := datetime.tzinfo dt |}.

Section Identifiers.

(** [hashlib.sha256(s.encode()).hexdigest()[:16]] *)
Variable sha256_hex16 : string -> string.

(** [datetime.fromisoformat], [None] when it raises [ValueError]. *)
Variable fromisoformat : string -> option datetime.t.

Definition parse_timestamp (timestamp : string) : outcome datetime.t :=
  match fromisoformat (utc_suffix timestamp) with
  | Some dt => Returned dt
  | None => Raised ValueError
  end.

Definition generate_source_id (title : string) (source_url : option string) : string :=
  let normalized_title := Py.strip (Py.lower title) in
  let content := normalized_title +:+ "|" +:+ default EmptyString source_url in
  sha256_hex16 content.

(** The string that is hashed. *)
Definition incident_content (category : string) (grid_lng grid_lat : float)
    (bucket : datetime.t) : string :=
  category +:+ "|" +:+ PyNum.format_2f grid_lng +:+ "|" +:+ PyNum.format_2f grid_lat
  +:+ "|" +:+ datetime.isoformat bucket.

Definition generate_incident_id (category : string) (lng lat : float)
    (timestamp : string) : outcome string :=
  let distance := get_grouping_distance category in
  grid_lng ← grid lng distance;
  grid_lat ← grid lat distance;
  dt ← parse_timestamp timestamp;
  let content := incident_content category grid_lng grid_lat (time_bucket dt) in
  mret (sha256_hex16 content).

End Identifiers.

(** ** Incident grouping ([IncidentGroup], [group_by_incident]) *)

Module EnrichedArticle.
Record t : Type := Build {
  location_name : string;
  category : string;
  severity : Z;
  summary : string;
  is_geopolitical : bool;
  latitude : float;
  longitude : float
}.
End EnrichedArticle.

Module IncidentGroup.
Record t : Type := Build {
  category : string;
  lng : float;
  lat : float;
  location_name : string;
  sources : list EventSource.t;
  severities : list Z
}.

(** [__init__] *)
Definition init (category : string) (lng lat : float) (location_name : string) : t :=
  {| category := category; lng := lng; lat := lat; location_name := location_name;
     sources := []; severities := [] |}.

(** [((c * (n - 1)) + x) / n] *)
Definition running_mean (c : float) (n : nat) (x : float) : float :=
  ((c * PyNum.float_of_len (n - 1) + x) / PyNum.float_of_len n)%float.

Definition add_source (self : t) (source : EventSource.t) (severity : Z)
    (lng' lat' : float) : t :=
  let sources' := sources self ++ [source] in
  let n := length sources' in
  {| category := category self;
     lng := running_mean (lng self) n lng';
     lat := running_mean (lat self) n lat';
     location_name := location_name self;
     sources := sources';
     severities := severities self ++ [severity] |}.

(** [math.sqrt((a - lng) ** 2 + (b - lat) ** 2)], the square taken as a
    product. *)
Definition distance (a b lng lat : float) : float :=
  PrimFloat.sqrt ((a - lng) * (a - lng) + (b - lat) * (b - lat))%float.

(** [abs(td.total_seconds()) / 3600] *)
Definition hours_of (td : Z) : float :=
  (PrimFloat.abs (datetime.total_seconds td) / 3600)%float.

Definition le_hours (hours_diff : float) (limit : Z) : bool :=
  PrimFloat.leb hours_diff (SF2Prim (binary_normalize prec emax limit 0 false)).

Section Matches.
Variable fromisoformat : string -> option datetime.t.

(** The loop over [self.sources] of [matches]. *)
Fixpoint any_within (article_dt : datetime.t) (sources : list EventSource.t)
    : outcome bool :=
  match sources with
  | [] => Returned false
  | source :: rest =>
      match fromisoformat (utc_suffix (EventSource.timestamp source)) with
      | None => any_within article_dt rest
      | Some source_dt =>
          td ← datetime.sub article_dt source_dt;
          if le_hours (hours_of td) GROUPING_TIME_HOURS then Returned true
          else any_within article_dt rest
      end
  end.

Definition matches (self : t) (category : string) (lng' lat' : float)
    (timestamp : string) : outcome bool :=
  match sources self with
  | [] => Returned false
  | _ =>
      if negb (String.eqb (IncidentGroup.category self) category) then Returned false
      else
        let max_distance := get_grouping_distance (IncidentGroup.category self) in
        if PyNum.gt (distance (lng self) (lat self) lng' lat') max_distance
        then Returned false
        else
          match fromisoformat (utc_suffix timestamp) with
          | None => Returned false
          | Some article_dt => any_within article_dt (sources self)
          end
  end.
End Matches.

(** [sorted(s.timestamp for s in self.sources)], first and last. *)
Definition get_timestamps (self : t) : outcome (string * string) :=
  let times := Py.sorted String.leb (map EventSource.timestamp (sources self)) in
  match times, last times with
  | first :: _, Some final => Returned (first, final)
  | _, _ => Raised IndexError
  end.

Definition get_max_severity (self : t) : Z :=
  match severities self with
  | [] => 5
  | s :: rest => fold_left Z.max rest s
  end.
End IncidentGroup.

Section Grouping.

Variable sha256_hex16 : string -> string.
Variable fromisoformat : string -> option datetime.t.

(** [source_name or "Unknown"] *)
Definition name_or_unknown (source_name : option string) : string :=
  match source_name with
  | None | Some EmptyString => "Unknown"
  | Some name => name
  end.

Definition make_source (article : Article.t) (enriched : EnrichedArticle.t)
    : EventSource.t :=
  {| EventSource.id :=
       generate_source_id sha256_hex16 (Article.title article) (Some (Article.url article));
     EventSource.headline := Article.title article;
     EventSource.summary := EnrichedArticle.summary enriched;
     EventSource.source_name := name_or_unknown (Article.source_name article);
     EventSource.source_url := Article.url article;
     EventSource.timestamp := Article.publishedAt article |}.

(** The scan [for group in groups: if group.matches(...): ... break]: the
    position of the first group that matches. *)
Fixpoint find_group (groups : list IncidentGroup.t) (category : string)
    (lng lat : float) (timestamp : string) : outcome (option nat) :=
  match groups with
  | [] => Returned None
  | group :: rest =>
      m ← IncidentGroup.matches fromisoformat group category lng lat timestamp;
      if (m : bool) then Returned (Some O)
      else
        r ← find_group rest category lng lat timestamp;
        mret (S <$> (r : option nat))
  end.

(** The body of the [for article, enriched in enriched_articles] loop. *)
Definition group_step (groups : list IncidentGroup.t)
    (item : Article.t * EnrichedArticle.t) : outcome (list IncidentGroup.t) :=
  let '(article, enriched) := item in
  let credibility := get_source_credibility (Article.source_name article) in
  if credibility <? 0 then Returned groups
  else
    let source := make_source article enriched in
    let category := EnrichedArticle.category enriched in
    let lng := EnrichedArticle.longitude enriched in
    let lat := EnrichedArticle.latitude enriched in
    matched ← find_group groups category lng lat (Article.publishedAt article);
    match (matched : option nat) with
    | Some i =>
        Returned
          (alter (fun g => IncidentGroup.add_source g source
                             (EnrichedArticle.severity enriched) lng lat) i groups)
    | None =>
        let new_group :=
          IncidentGroup.init category lng lat (EnrichedArticle.location_name enriched) in
        Returned
          (groups ++ [IncidentGroup.add_source new_group source
                        (EnrichedArticle.severity enriched) lng lat])
    end.

Fixpoint group_loop (groups : list IncidentGroup.t)
    (enriched_articles : list (Article.t * EnrichedArticle.t))
    : outcome (list IncidentGroup.t) :=
  match enriched_articles with
  | [] => Returned groups
  | item :: rest =>
      groups' ← group_step groups item;
      group_loop groups' rest
  end.

Definition group_by_incident (enriched_articles : list (Article.t * EnrichedArticle.t))
    : outcome (list IncidentGroup.t) :=
  group_loop [] enriched_articles.

End Grouping.

(** ** Events *)

(** [GeoEvent]: a freshly built event. *)
Module GeoEvent.
Record t : Type := Build {
  id : string;
  title : string;
  category : string;
  coordinates : float * float;
  location_name : string;
  region : string;
  severity : Z;
  summary : string;
  timestamp : string;
  last_updated : string;
  fallout_prediction : string;
  sources : list EventSource.t
}.
End GeoEvent.

(** An event as a dict of the persisted set. The keys the code reads with
    [.get(key, default)] only are optional. *)
Module Event.
Record t : Type := Build {
  id : string;
  title : string;
  category : string;
  coordinates : float * float;
  location_name : string;
  region : string;
  severity : Z;
  summary : string;
  timestamp : string;
  last_updated : option string;
  fallout_prediction : string;
  sources : list EventSource.t;
  _last_synthesis_count : option Z
}.

(** [event.model_dump()] *)
Definition model_dump (e : GeoEvent.t) : t :=
  {| id := GeoEvent.id e; title := GeoEvent.title e; category := GeoEvent.category e;
     coordinates := GeoEvent.coordinates e; location_name := GeoEvent.location_name e;
     region := GeoEvent.region e; severity := GeoEvent.severity e;
     summary := GeoEvent.summary e; timestamp := GeoEvent.timestamp e;
     last_updated := Some (GeoEvent.last_updated e);
     fallout_prediction := GeoEvent.fallout_prediction e;
     sources := GeoEvent.sources e; _last_synthesis_count := None |}.

Definition set_sources (v : list EventSource.t) (e : t) : t :=
  {| id := id e; title := title e; category := category e;
     coordinates := coordinates e; location_name := location_name e;
     region := region e; severity := severity e; summary := summary e;
     timestamp := timestamp e; last_updated := last_updated e;
     fallout_prediction := fallout_prediction e;
     sources := v; _last_synthesis_count := _last_synthesis_count e |}.

Definition set_last_updated (v : string) (e : t) : t :=
  {| id := id e; title := title e; category := category e;
     coordinates := coordinates e; location_name := location_name e;
     region := region e; severity := severity e; summary := summary e;
     timestamp := timestamp e; last_updated := Some v;
     fallout_prediction := fallout_prediction e;
     sources := sources e; _last_synthesis_count := _last_synthesis_count e |}.

Definition set_severity (v : Z) (e : t) : t :=
  {| id := id e; title := title e; category := category e;
     coordinates := coordinates e; location_name := location_name e;
     region := region e; severity := v; summary := summary e;
     timestamp := timestamp e; last_updated := last_updated e;
     fallout_prediction := fallout_prediction e;
     sources := sources e; _last_synthesis_count := _last_synthesis_count e |}.

Definition set_last_synthesis_count (v : Z) (e : t) : t :=
  {| id := id e; title := title e; category := category e;
     coordinates := coordinates e; location_name := location_name e;
     region := region e; severity := severity e; summary := summary e;
     timestamp := timestamp e; last_updated := last_updated e;
     fallout_prediction := fallout_prediction e;
     sources := sources e; _last_synthesis_count := Some v |}.

Definition set_text (title' summary' fallout' : string) (e : t) : t :=
  {| id := id e; title := title'; category := category e;
     coordinates := coordinates e; location_name := location_name e;
     region := region e; severity := severity e; summary := summary';
     timestamp := timestamp e; last_updated := last_updated e;
     fallout_prediction := fallout';
     sources := sources e; _last_synthesis_count := _last_synthesis_count e |}.

(** [event.get("last_updated", event["timestamp"])] *)
Definition last_updated_or_timestamp (e : t) : string :=
  default (timestamp e) (last_updated e).
End Event.

(** ** Building events ([process_articles], the branch on the synthesis
    result) *)

(** [(title, summary, severity, fallout)] of the event built for [group]
    from [synthesis_results[i]]. *)
Definition event_fields (group : IncidentGroup.t) (synthesized : option SynthesizedEvent.t)
    : outcome (string * string * Z * string) :=
  match synthesized with
  | Some synthesized =>
      Returned (SynthesizedEvent.title synthesized, SynthesizedEvent.summary synthesized,
                SynthesizedEvent.severity synthesized,
                SynthesizedEvent.fallout_prediction synthesized)
  | None =>
      match IncidentGroup.sources group with
      | [] => Raised IndexError
      | src :: _ =>
          Returned (EventSource.headline src, EventSource.summary src,
                    IncidentGroup.get_max_severity group, EmptyString)
      end
  end.

(** One incident of [process_articles]: the synthesis task of the group and
    the fields built from its result, which the gathered list always holds. *)
Definition synthesized_fields (client : generate) (group : IncidentGroup.t)
    : outcome (string * string * Z * string) :=
  synthesized ← synthesize_incident client (IncidentGroup.sources group);
  event_fields group (Some synthesized).

(** ** Retention ([retention_score]) *)

Definition MAX_EVENTS : nat := 500.

Definition SEVERITY_BONUS_HOURS : list (Z * Z) :=
  [ (10, 168); (9, 120); (8, 72); (7, 48) ].

Fixpoint bonus_get (severity : Z) (table : list (Z * Z)) : option Z :=
  match table with
  | [] => None
  | (k, v) :: table' => if k =? severity then Some v else bonus_get severity table'
  end.

Section Retention.
Variable fromisoformat : string -> option datetime.t.

Definition retention_score (event : Event.t) : outcome datetime.stamp :=
  let timestamp := Event.last_updated_or_timestamp event in
  dt ← parse_timestamp fromisoformat timestamp;
  let severity := Event.severity event in
  let bonus_hours := default 0 (bonus_get severity SEVERITY_BONUS_HOURS) in
  datetime.add_hours dt bonus_hours.

(** The keys of [sorted(..., key=retention_score, ...)], computed in list
    order before any comparison. *)
Fixpoint score_all (events : list Event.t) : outcome (list (datetime.stamp * Event.t)) :=
  match events with
  | [] => Returned []
  | e :: rest =>
      k ← retention_score e;
      ks ← score_all rest;
      mret ((k, e) :: (ks : list (datetime.stamp * Event.t)))
  end.

(** Comparing an aware with a naive datetime raises, and a sort of two or
    more keys cannot avoid that comparison when both kinds occur. *)
Definition comparable (keys : list datetime.stamp) : bool :=
  forallb datetime.is_aware keys || forallb (fun k => negb (datetime.is_aware k)) keys.

Definition score_ge (a b : datetime.stamp * Event.t) : bool :=
  datetime.instant b.1 <=? datetime.instant a.1.

(** [sorted(events, key=retention_score, reverse=True)] *)
Definition sort_by_retention (events : list Event.t) : outcome (list Event.t) :=
  keyed ← score_all events;
  if comparable (map fst keyed) then Returned (map snd (Py.sorted score_ge keyed))
  else Raised TypeError.
End Retention.

(** ** Merging into the persisted set ([merge_with_existing]) *)

(** [d[k] = v] on a dict kept in insertion order. *)
Fixpoint dict_set {V} (k : string) (v : V) (d : list (string * V)) : list (string * V) :=
  match d with
  | [] => [(k, v)]
  | (k', v') :: d' =>
      if String.eqb k' k then (k', v) :: d' else (k', v') :: dict_set k v d'
  end.

(** In-place change of the dict stored under [k]. *)
Fixpoint dict_update {V} (k : string) (f : V -> V) (d : list (string * V)) : list (string * V) :=
  match d with
  | [] => []
  | (k', v') :: d' =>
      if String.eqb k' k then (k', f v') :: d' else (k', v') :: dict_update k f d'
  end.

(** [{e["id"]: e for e in existing_data}] *)
Definition index_by_id (existing_data : list Event.t) : list (string * Event.t) :=
  fold_left (fun d e => dict_set (Event.id e) e d) existing_data [].

(** The ids of all sources of all events of [existing_data]. *)
Definition all_source_ids (existing_data : list Event.t) : gset string :=
  list_to_set (map EventSource.id (concat (map Event.sources existing_data))).

(** The sources whose id has not been seen, each id marked as seen when its
    source is taken. *)
Fixpoint take_unseen (seen_source_ids : gset string) (sources : list EventSource.t)
    : list EventSource.t * gset string :=
  match sources with
  | [] => ([], seen_source_ids)
  | source :: rest =>
      if decide (EventSource.id source ∈ seen_source_ids)
      then take_unseen seen_source_ids rest
      else
        let '(taken, seen') := take_unseen (seen_source_ids ∪ {[EventSource.id source]}) rest in
        (source :: taken, seen')
  end.

Definition sort_by_timestamp (sources : list EventSource.t) : list EventSource.t :=
  Py.sorted (fun a b => String.leb (EventSource.timestamp a) (EventSource.timestamp b)) sources.

Definition string_max (a b : string) : string :=
  if String.ltb a b then b else a.

Record merge_state : Type := MergeState {
  existing_by_id : list (string * Event.t);
  seen_source_ids : gset string;
  events_needing_synthesis : list string
}.

(** What the merge branch stores into the matched dict; the second component
    tells whether the event is queued for synthesis. *)
Definition merge_into (existing event_dict : Event.t) (new_sources : list EventSource.t)
    : Event.t * bool :=
  let existing_sources := Event.sources existing in
  let old_source_count := Z.of_nat (length existing_sources) in
  let existing_sources := existing_sources ++ new_sources in
  let new_source_count := Z.of_nat (length existing_sources) in
  let existing_sources := sort_by_timestamp existing_sources in
  let e := Event.set_sources existing_sources existing in
  let e :=
    Event.set_last_updated
      (string_max (Event.last_updated_or_timestamp existing)
                  (Event.last_updated_or_timestamp event_dict)) e in
  let e := Event.set_severity (Z.max (Event.severity existing) (Event.severity event_dict)) e in
  let last_synth_count := default old_source_count (Event._last_synthesis_count existing) in
  let sources_since_synthesis := new_source_count - last_synth_count in
  if 2 <=? sources_since_synthesis
  then (Event.set_last_synthesis_count new_source_count e, true)
  else (e, false).

Section Merge.

Variable fromisoformat : string -> option datetime.t.

(** The loop of [_find_similar_existing_event] over
    [existing_events.values()]; the dict that is returned comes with the
    key it is stored under. *)
Fixpoint find_similar_loop (new_cat : string) (new_coords : float * float)
    (new_dt : datetime.t) (distance_threshold : float) (time_hours : Z)
    (items : list (string * Event.t)) : outcome (option (string * Event.t)) :=
  match items with
  | [] => Returned None
  | (key, existing) :: rest =>
      let continue :=
        find_similar_loop new_cat new_coords new_dt distance_threshold time_hours rest in
      if negb (String.eqb (Event.category existing) new_cat) then continue
      else
        let ex_coords := Event.coordinates existing in
        let distance :=
          IncidentGroup.distance new_coords.1 new_coords.2 ex_coords.1 ex_coords.2 in
        if PyNum.gt distance distance_threshold then continue
        else
          match fromisoformat (utc_suffix (Event.timestamp existing)) with
          | None => continue
          | Some ex_dt =>
              td ← datetime.sub new_dt ex_dt;
              if PyNum.gt (IncidentGroup.hours_of td)
                   (SF2Prim (binary_normalize prec emax time_hours 0 false))
              then continue
              else Returned (Some (key, existing))
          end
  end.

Definition _find_similar_existing_event (new_event : Event.t)
    (existing_events : list (string * Event.t)) : outcome (option (string * Event.t)) :=
  match fromisoformat (utc_suffix (Event.timestamp new_event)) with
  | None => Returned None
  | Some new_dt =>
      find_similar_loop (Event.category new_event) (Event.coordinates new_event)
        new_dt 1.0%float 24 existing_events
  end.

(** [existing_by_id.get(event.id)], then the similarity search. *)
Definition find_existing (st : merge_state) (event : GeoEvent.t) (event_dict : Event.t)
    : outcome (option (string * Event.t)) :=
  match Py.dict_get (GeoEvent.id event) (existing_by_id st) with
  | Some existing => Returned (Some (GeoEvent.id event, existing))
  | None => _find_similar_existing_event event_dict (existing_by_id st)
  end.

(** The body of [for event in new_events]. *)
Definition merge_step (st : merge_state) (event : GeoEvent.t) : outcome merge_state :=
  let event_dict := Event.model_dump event in
  matched ← find_existing st event event_dict;
  let '(fresh, seen') := take_unseen (seen_source_ids st) (Event.sources event_dict) in
  match (matched : option (string * Event.t)), fresh with
  | Some (key, existing), _ :: _ =>
      let '(merged, queued) := merge_into existing event_dict fresh in
      Returned
        {| existing_by_id := dict_update key (fun _ => merged) (existing_by_id st);
           seen_source_ids := seen';
           events_needing_synthesis :=
             if queued then events_needing_synthesis st ++ [key]
             else events_needing_synthesis st |}
  | None, _ :: _ =>
      Returned
        {| existing_by_id :=
             dict_set (GeoEvent.id event) (Event.set_sources fresh event_dict)
               (existing_by_id st);
           seen_source_ids := seen';
           events_needing_synthesis := events_needing_synthesis st |}
  | _, [] =>
      Returned
        {| existing_by_id := existing_by_id st;
           seen_source_ids := seen';
           events_needing_synthesis := events_needing_synthesis st |}
  end.

Fixpoint merge_loop (st : merge_state) (new_events : list GeoEvent.t)
    : outcome merge_state :=
  match new_events with
  | [] => Returned st
  | event :: rest =>
      st' ← merge_step st event;
      merge_loop st' rest
  end.

(** The gathered synthesis tasks: task [i] runs [client i] on the sources
    the queued event holds when the tasks are created. The queue holds
    references to dicts of [existing_by_id], kept here as their keys; a
    queued key is always present, so the [None] case is never run. *)
Fixpoint gather_synthesis (client : nat -> generate) (i : nat)
    (by_id : list (string * Event.t)) (queue : list string)
    : outcome (list SynthesizedEvent.t) :=
  match queue with
  | [] => Returned []
  | key :: rest =>
      match Py.dict_get key by_id with
      | None => Raised IndexError
      | Some event =>
          s ← synthesize_incident (client i) (Event.sources event);
          ss ← gather_synthesis client (S i) by_id rest;
          mret (s :: (ss : list SynthesizedEvent.t))
      end
  end.

(** [for event, synthesized in zip(...)]: the update of one event. *)
Definition apply_synthesis (synthesized : SynthesizedEvent.t) (event : Event.t) : Event.t :=
  let fallout :=
    if String.eqb (SynthesizedEvent.fallout_prediction synthesized) EmptyString
    then Event.fallout_prediction event
    else SynthesizedEvent.fallout_prediction synthesized in
  let event :=
    Event.set_text (SynthesizedEvent.title synthesized)
      (SynthesizedEvent.summary synthesized) fallout event in
  if Event.severity event <? SynthesizedEvent.severity synthesized
  then Event.set_severity (SynthesizedEvent.severity synthesized) event
  else event.

Fixpoint apply_all (by_id : list (string * Event.t))
    (pairs : list (string * SynthesizedEvent.t)) : list (string * Event.t) :=
  match pairs with
  | [] => by_id
  | (key, synthesized) :: rest =>
      apply_all (dict_update key (apply_synthesis synthesized) by_id) rest
  end.

(** The re-synthesis pass; [gemini_client] is [None] when no client is
    passed. *)
Definition resynthesize (gemini_client : option (nat -> generate)) (st : merge_state)
    : outcome (list (string * Event.t)) :=
  match events_needing_synthesis st, gemini_client with
  | _ :: _, Some client =>
      results ← gather_synthesis client O (existing_by_id st) (events_needing_synthesis st);
      mret (apply_all (existing_by_id st) (zip (events_needing_synthesis st) results))
  | _, _ => Returned (existing_by_id st)
  end.

(** The state before the loop. *)
Definition merge_init (existing_data : list Event.t) : merge_state :=
  {| existing_by_id := index_by_id existing_data;
     seen_source_ids := all_source_ids existing_data;
     events_needing_synthesis := [] |}.

(** The events the retention sort is applied to. *)
Definition merged_events (new_events : list GeoEvent.t) (existing_data : list Event.t)
    (gemini_client : option (nat -> generate)) : outcome (list Event.t) :=
  st ← merge_loop (merge_init existing_data) new_events;
  by_id ← resynthesize gemini_client st;
  mret (map snd (by_id : list (string * Event.t))).

Definition merge_with_existing (new_events : list GeoEvent.t)
    (existing_data : list Event.t) (gemini_client : option (nat -> generate))
    : outcome (list Event.t) :=
  all ← merged_events new_events existing_data gemini_client;
  all_events ← sort_by_retention fromisoformat all;
  mret (take MAX_EVENTS (all_events : list Event.t)).

End Merge.

(** ** A parser instance

    [datetime.fromisoformat] restricted to the one layout that
    [fetch_rss_articles] emits, [YYYY-MM-DDTHH:MM:SS+00:00]; used to run the
    model on examples. *)

Definition valid_b (dt : datetime.t) : bool :=
  (1 <=? datetime.year dt) && (datetime.year dt <=? 9999)
  && (1 <=? datetime.month dt) && (datetime.month dt <=? 12)
  && (1 <=? datetime.day dt)
  && (datetime.day dt <=? datetime.days_in_month (datetime.year dt) (datetime.month dt))
  && (0 <=? datetime.hour dt) && (datetime.hour dt <? 24)
  && (0 <=? datetime.minute dt) && (datetime.minute dt <? 60)
  && (0 <=? datetime.second dt) && (datetime.second dt <? 60)
  && (0 <=? datetime.microsecond dt) && (datetime.microsecond dt <? 1000000)
  && match datetime.tzinfo dt with
     | None => true
     | Some off => (- datetime.day_micros <? off) && (off <? datetime.day_micros)
     end.

Fixpoint digits_number (acc : Z) (s : string) : option Z :=
  match s with
  | EmptyString => Some acc
  | String c s' =>
      let n := N_of_ascii c in
      if ((48 <=? n) && (n <=? 57))%N then digits_number (acc * 10 + (Z.of_N n - 48)) s'
      else None
  end.

Definition field (s : string) (start len : nat) : option Z :=
  digits_number 0 (String.substring start len s).

Definition fromisoformat_utc (s : string) : option datetime.t :=
  if (String.length s =? 25)%nat
     && String.eqb (String.substring 4 1 s) "-"
     && String.eqb (String.substring 7 1 s) "-"
     && String.eqb (String.substring 10 1 s) "T"
     && String.eqb (String.substring 13 1 s) ":"
     && String.eqb (String.substring 16 1 s) ":"
     && String.eqb (String.substring 19 6 s) "+00:00"
  then
    y ← field s 0 4;
    m ← field s 5 2;
    d ← field s 8 2;
    h ← field s 11 2;
    mi ← field s 14 2;
    se ← field s 17 2;
    let dt :=
      {| datetime.year := y; datetime.month := m; datetime.day := d;
         datetime.hour := h; datetime.minute := mi; datetime.second := se;
         datetime.microsecond := 0; datetime.tzinfo := Some 0 |} in
    if valid_b dt then Some dt else None
  else None.

(** A stand-in for a digest on examples: the text itself. *)
Definition plain_digest (s : string) : string := s.

(** * Vocabulary of the statements *)

(** ** Credibility *)

(** [needle] occurs in [hay]. *)
Definition occurs_in (needle hay : string) : Prop :=
  exists pre post, hay = pre +:+ needle +:+ post.

(** A table key and a name are related when one occurs in the other. *)
Definition partial (known_source name_lower : string) : Prop :=
  occurs_in known_source name_lower \/ occurs_in name_lower known_source.

Definition source_le (a b : EventSource.t) : bool :=
  key_le (source_sort_key a) (source_sort_key b).

Definition below_all {A} (le : A -> A -> bool) (x : A) (l : list A) : Prop :=
  Forall (fun y => le x y = true) l.

(** ** Deduplication *)

Definition seen_nothing : seen :=
  {| seen_urls := ∅; seen_title_hashes := ∅; seen_keywords := [] |}.

Section DedupeVocabulary.

Variable md5_hex16 : string -> string.
Variable similarity_threshold : float.

(** The article is skipped in state [st]. *)
Definition skipped (st : seen) (a : Article.t) : bool :=
  bool_decide (_normalize_url (Article.url a) ∈ seen_urls st)
  || bool_decide (_title_hash md5_hex16 (Article.title a) ∈ seen_title_hashes st)
  || (bool_decide (_extract_keywords (Article.title a) ≠ ∅)
      && similar_to_seen similarity_threshold (_extract_keywords (Article.title a))
           (seen_keywords st)).

(** The state once the article has been kept. *)
Definition remember (st : seen) (a : Article.t) : seen :=
  {| seen_urls := seen_urls st ∪ {[_normalize_url (Article.url a)]};
     seen_title_hashes := seen_title_hashes st ∪ {[_title_hash md5_hex16 (Article.title a)]};
     seen_keywords :=
       if decide (_extract_keywords (Article.title a) ≠ ∅)
       then seen_keywords st ++ [_extract_keywords (Article.title a)]
       else seen_keywords st |}.

(** [y], kept earlier, makes [x] a duplicate. *)
Definition duplicate_of (y x : Article.t) : Prop :=
  _normalize_url (Article.url y) = _normalize_url (Article.url x)
  \/ _title_hash md5_hex16 (Article.title y) = _title_hash md5_hex16 (Article.title x)
  \/ (_extract_keywords (Article.title x) ≠ ∅ /\ _extract_keywords (Article.title y) ≠ ∅
      /\ PyNum.ge (jaccard (_extract_keywords (Article.title x))
                     (_extract_keywords (Article.title y)))
           similarity_threshold = true).

End DedupeVocabulary.

(** ** Grouping *)

Section GroupingVocabulary.

Variable sha256_hex16 : string -> string.
Variable fromisoformat : string -> option datetime.t.

(** The article time lies within the grouping window of the source time. *)
Definition within_window (timestamp source_timestamp : string) : Prop :=
  exists article_dt source_dt td,
    fromisoformat (utc_suffix timestamp) = Some article_dt
    /\ fromisoformat (utc_suffix source_timestamp) = Some source_dt
    /\ datetime.sub article_dt source_dt = Returned td
    /\ IncidentGroup.le_hours (IncidentGroup.hours_of td) GROUPING_TIME_HOURS = true.

(** The three conditions under which [group] takes an article. *)
Definition fits (group : IncidentGroup.t) (category : string) (lng lat : float)
    (timestamp : string) : Prop :=
  IncidentGroup.category group = category
  /\ PyNum.gt (IncidentGroup.distance (IncidentGroup.lng group) (IncidentGroup.lat group)
                 lng lat)
       (get_grouping_distance category) = false
  /\ exists source, source ∈ IncidentGroup.sources group
                    /\ within_window timestamp (EventSource.timestamp source).

(** The group an article founds. *)
Definition founded (article : Article.t) (enriched : EnrichedArticle.t) : IncidentGroup.t :=
  IncidentGroup.add_source
    (IncidentGroup.init (EnrichedArticle.category enriched)
       (EnrichedArticle.longitude enriched) (EnrichedArticle.latitude enriched)
       (EnrichedArticle.location_name enriched))
    (make_source sha256_hex16 article enriched) (EnrichedArticle.severity enriched)
    (EnrichedArticle.longitude enriched) (EnrichedArticle.latitude enriched).

(** The group after the article has been attached to it. *)
Definition attached (group : IncidentGroup.t) (article : Article.t)
    (enriched : EnrichedArticle.t) : IncidentGroup.t :=
  IncidentGroup.add_source group (make_source sha256_hex16 article enriched)
    (EnrichedArticle.severity enriched)
    (EnrichedArticle.longitude enriched) (EnrichedArticle.latitude enriched).

(** A timestamp that, if it parses at all, parses to an aware value. *)
Definition aware_or_unparsed (timestamp : string) : Prop :=
  forall dt, fromisoformat (utc_suffix timestamp) = Some dt -> is_Some (datetime.tzinfo dt).

Definition aware_groups (groups : list IncidentGroup.t) : Prop :=
  Forall (fun group =>
            Forall (fun source => aware_or_unparsed (EventSource.timestamp source))
              (IncidentGroup.sources group))
    groups.

(** The digest separates the strings it is given. *)
Definition collision_free : Prop :=
  forall s s', sha256_hex16 s = sha256_hex16 s' -> s = s'.

(** The parser returns values of the ranges [datetime] allows. *)
Definition parses_valid : Prop :=
  forall s dt, fromisoformat s = Some dt -> datetime.valid dt.

End GroupingVocabulary.

(** No source of any group comes from an outlet of negative credibility. *)
Definition reliable (groups : list IncidentGroup.t) : Prop :=
  Forall (fun group =>
            Forall (fun source =>
                      0 <= get_source_credibility (Some (EventSource.source_name source)))
              (IncidentGroup.sources group))
    groups.

Definition is_reliable (item : Article.t * EnrichedArticle.t) : Prop :=
  0 <= get_source_credibility (Article.source_name item.1).

#[global] Instance is_reliable_dec item : Decision (is_reliable item) :=
  Z_le_dec 0 (get_source_credibility (Article.source_name item.1)).

(** ** Grid cells and the hashed string *)

(** The index of the grid cell: [round(x / distance)]. *)
Definition cell (x : float) (category : string) : outcome Z :=
  PyNum.round (x / get_grouping_distance category)%float.

(** [k * distance] for an integer [k]. *)
Definition cell_corner (k : Z) (distance : float) : outcome float :=
  fk ← PyNum.float_of_int k;
  mret (fk * distance)%float.

(** Cells reached from valid coordinates, at any of the three radii. *)
Definition cell_in_range (k : Z) : Prop := -1800 <= k <= 1800.

(** A printed value read back as a number of hundredths. *)
Fixpoint digits_value (acc : Z) (s : string) : Z :=
  match s with
  | EmptyString => acc
  | String c s' =>
      let n := N_of_ascii c in
      if ((48 <=? n) && (n <=? 57))%N then digits_value (acc * 10 + (Z.of_N n - 48)) s'
      else digits_value acc s'
  end.

Definition hundredths (s : string) : Z :=
  match s with
  | String "-" s' => - digits_value 0 s'
  | _ => digits_value 0 s
  end.

(** The number of hundredths in one cell of the given width. *)
Definition cell_hundredths (distance : float) : Z :=
  hundredths (PyNum.format_2f distance).

Definition cell_prints_back (distance : float) (k : Z) : bool :=
  match cell_corner k distance with
  | Returned g => hundredths (PyNum.format_2f g) =? k * cell_hundredths distance
  | Raised _ => false
  end.

Definition cells : list Z := map (fun i => Z.of_nat i - 1800) (seq 0 3601).

Definition bar : ascii := "|"%char.

Definition bar_free (s : string) : Prop := Py.has_char bar s = false.

(** The part of [format_offset] after the sign, for the magnitude [a]. *)
Definition offset_digits (a : Z) : string :=
  datetime.pad 2 (a / 3600000000) +:+ ":" +:+ datetime.pad 2 (a mod 3600000000 / 60000000)
  +:+ (if (a mod 60000000 / 1000000 =? 0) && (a mod 1000000 =? 0) then EmptyString
       else ":" +:+ datetime.pad 2 (a mod 60000000 / 1000000)
            +:+ (if a mod 1000000 =? 0 then EmptyString
                 else "." +:+ datetime.pad 6 (a mod 1000000))).

(** ** Events across a merge *)

(** [e'] is a later state of [e]: identity and creation time kept, severity
    and [last_updated] not lowered. [last_updated] values are compared as
    Python compares them, as strings. *)
Definition evolves (e e' : Event.t) : Prop :=
  Event.id e' = Event.id e
  /\ Event.timestamp e' = Event.timestamp e
  /\ Event.severity e <= Event.severity e'
  /\ String.leb (Event.last_updated_or_timestamp e) (Event.last_updated_or_timestamp e') = true.

(** [d'] holds every entry of [d], each possibly evolved and in the same
    place, followed by new entries. *)
Definition extends (d d' : list (string * Event.t)) : Prop :=
  exists d1 d2,
    d' = d1 ++ d2
    /\ Forall2 (fun kv kv' => kv.1 = kv'.1 /\ evolves kv.2 kv'.2) d d1.

(** Every entry is stored under the id of its event, and no key occurs
    twice. *)
Definition well_keyed (d : list (string * Event.t)) : Prop :=
  NoDup (map fst d) /\ Forall (fun kv => Event.id kv.2 = kv.1) d.

(** The ids of all sources of the events, event by event. *)
Definition source_ids (events : list Event.t) : list string :=
  map EventSource.id (concat (map Event.sources events)).

(** What one step of the merge loop does to the state. *)
Definition step_effect (st st' : merge_state) : Prop :=
  extends (existing_by_id st) (existing_by_id st')
  /\ well_keyed (existing_by_id st')
  /\ Forall (fun key => key ∈ map fst (existing_by_id st')) (events_needing_synthesis st')
  /\ exists fresh_ids,
       source_ids (map snd (existing_by_id st'))
       ≡ₚ source_ids (map snd (existing_by_id st)) ++ fresh_ids
       /\ NoDup fresh_ids
       /\ (forall x, x ∈ fresh_ids -> x ∉ seen_source_ids st)
       /\ seen_source_ids st' = seen_source_ids st ∪ list_to_set fresh_ids.

(** The bonus of [SEVERITY_BONUS_HOURS], written as a step function. *)
Definition severity_bonus (severity : Z) : Z :=
  match severity with
  | 10 => 168
  | 9 => 120
  | 8 => 72
  | 7 => 48
  | _ => 0
  end.

(** ** The lookup rule as the specification words it

    For a name and a result: the table score on an exact case-insensitive
    match, otherwise the score of a key that the name contains or that
    contains the name, otherwise 0. *)
Definition lookup_as_specified (name : string) (result : Z) : Prop :=
  let n := Py.lower name in
  (exists score, (n, score) ∈ SOURCE_CREDIBILITY /\ result = score)
  \/ ((forall score, (n, score) ∉ SOURCE_CREDIBILITY)
      /\ exists key score, (key, score) ∈ SOURCE_CREDIBILITY /\ partial key n /\ result = score)
  \/ ((forall score, (n, score) ∉ SOURCE_CREDIBILITY)
      /\ (forall key score, (key, score) ∈ SOURCE_CREDIBILITY -> ~ partial key n)
      /\ result = 0).

(** * Sample data *)

Definition kyiv_strike : Article.t :=
  {| Article.title := "Strike hits Kyiv power plant";
     Article.description := "A strike hit a power plant.";
     Article.url := "https://wire.example/kyiv-strike";
     Article.source_name := Some "Reuters";
     Article.publishedAt := "2026-01-21T10:00:00+00:00" |}.

Definition kyiv_strike_facts : EnrichedArticle.t :=
  {| EnrichedArticle.location_name := "Kyiv, Ukraine";
     EnrichedArticle.category := "MILITARY";
     EnrichedArticle.severity := 8;
     EnrichedArticle.summary := "A strike hit a power plant in Kyiv.";
     EnrichedArticle.is_geopolitical := true;
     EnrichedArticle.latitude := 50.45%float;
     EnrichedArticle.longitude := 30.52%float |}.

Definition kyiv_followup : Article.t :=
  {| Article.title := "Kyiv power cut after strike";
     Article.description := "Power was cut.";
     Article.url := "https://bbc.example/kyiv-power";
     Article.source_name := Some "BBC News";
     Article.publishedAt := "2026-01-21T13:00:00+00:00" |}.

Definition kyiv_followup_facts : EnrichedArticle.t :=
  {| EnrichedArticle.location_name := "Kyiv, Ukraine";
     EnrichedArticle.category := "MILITARY";
     EnrichedArticle.severity := 6;
     EnrichedArticle.summary := "Power was cut in Kyiv after the strike.";
     EnrichedArticle.is_geopolitical := true;
     EnrichedArticle.latitude := 50.46%float;
     EnrichedArticle.longitude := 30.53%float |}.

Definition kyiv_rumour : Article.t :=
  {| Article.title := "Kyiv strike was staged";
     Article.description := "";
     Article.url := "https://rt.example/kyiv";
     Article.source_name := Some "RT";
     Article.publishedAt := "2026-01-21T11:00:00+00:00" |}.

Definition sample_batch : list (Article.t * EnrichedArticle.t) :=
  [ (kyiv_rumour, kyiv_strike_facts); (kyiv_strike, kyiv_strike_facts) ].

Definition outcome_or {A} (d : A) (m : outcome A) : A :=
  match m with
  | Returned a => a
  | Raised _ => d
  end.

Definition sample_groups : list IncidentGroup.t :=
  Eval vm_compute in
    outcome_or [] (group_by_incident plain_digest fromisoformat_utc sample_batch).

Definition sample_groups_after : list IncidentGroup.t :=
  Eval vm_compute in
    outcome_or []
      (group_step plain_digest fromisoformat_utc sample_groups
         (kyiv_followup, kyiv_followup_facts)).

Definition source_a : EventSource.t :=
  {| EventSource.id := "a1";
     EventSource.headline := "Strike hits Kyiv power plant";
     EventSource.summary := "A strike hit a power plant in Kyiv.";
     EventSource.source_name := "Reuters";
     EventSource.source_url := "https://wire.example/kyiv-strike";
     EventSource.timestamp := "2026-01-21T10:00:00+00:00" |}.

Definition source_b : EventSource.t :=
  {| EventSource.id := "b1";
     EventSource.headline := "Kyiv power cut after strike";
     EventSource.summary := "Power was cut in Kyiv after the strike.";
     EventSource.source_name := "BBC News";
     EventSource.source_url := "https://bbc.example/kyiv-power";
     EventSource.timestamp := "2026-01-21T13:00:00+00:00" |}.

Definition sample_group : IncidentGroup.t :=
  {| IncidentGroup.category := "MILITARY";
     IncidentGroup.lng := 30.52%float;
     IncidentGroup.lat := 50.45%float;
     IncidentGroup.location_name := "Kyiv, Ukraine";
     IncidentGroup.sources := [source_a];
     IncidentGroup.severities := [8] |}.

(** A client whose every call fails. *)
Definition failing_client : generate := fun _ => None.

Definition persisted_event : Event.t :=
  {| Event.id := "e1";
     Event.title := "Strike hits Kyiv power plant";
     Event.category := "MILITARY";
     Event.coordinates := (30.52%float, 50.45%float);
     Event.location_name := "Kyiv, Ukraine";
     Event.region := "EUROPE";
     Event.severity := 7;
     Event.summary := "A strike hit a power plant in Kyiv.";
     Event.timestamp := "2026-01-21T10:00:00+00:00";
     Event.last_updated := Some "2026-01-21T10:00:00+00:00";
     Event.fallout_prediction := "";
     Event.sources := [source_a];
     Event._last_synthesis_count := None |}.

Definition incoming_event : GeoEvent.t :=
  {| GeoEvent.id := "e1";
     GeoEvent.title := "Kyiv power cut after strike";
     GeoEvent.category := "MILITARY";
     GeoEvent.coordinates := (30.53%float, 50.46%float);
     GeoEvent.location_name := "Kyiv, Ukraine";
     GeoEvent.region := "EUROPE";
     GeoEvent.severity := 5;
     GeoEvent.summary := "Power was cut in Kyiv after the strike.";
     GeoEvent.timestamp := "2026-01-21T10:00:00+00:00";
     GeoEvent.last_updated := "2026-01-21T13:00:00+00:00";
     GeoEvent.fallout_prediction := "";
     GeoEvent.sources := [source_a; source_b] |}.

Definition sample_merged : list Event.t :=
  Eval vm_compute in
    outcome_or []
      (merge_with_existing fromisoformat_utc [incoming_event] [persisted_event] None).

Definition sample_merged_again : list Event.t :=
  Eval vm_compute in
    outcome_or []
      (merge_with_existing fromisoformat_utc [incoming_event] sample_merged None).

Definition short_title_a : Article.t :=
  {| Article.title := "US to UK";
     Article.description := "";
     Article.url := "https://a.example/1";
     Article.source_name := Some "Reuters";
     Article.publishedAt := "2026-01-21T10:00:00+00:00" |}.

Definition short_title_b : Article.t :=
  {| Article.title := "EU by";
     Article.description := "";
     Article.url := "https://b.example/2";
     Article.source_name := Some "BBC News";
     Article.publishedAt := "2026-01-21T11:00:00+00:00" |}.

Definition kyiv_noon : datetime.t :=
  {| datetime.year := 2026; datetime.month := 1; datetime.day := 21;
     datetime.hour := 12; datetime.minute := 0; datetime.second := 0;
     datetime.microsecond := 0; datetime.tzinfo := Some 0 |}.

Definition kyiv_afternoon : datetime.t :=
  {| datetime.year := 2026; datetime.month := 1; datetime.day := 21;
     datetime.hour := 15; datetime.minute := 0; datetime.second := 0;
     datetime.microsecond := 0; datetime.tzinfo := Some 0 |}.

(** * Facts *)

(** * Facts about the Python string and list operations *)

Section StringOrder.

Lemma ascii_compare_refl (c : ascii) : Ascii.compare c c = Eq.
Proof. unfold Ascii.compare. apply N.compare_refl. Qed.

Lemma ascii_compare_lt_trans (a b c : ascii) :
  Ascii.compare a b = Lt -> Ascii.compare b c = Lt -> Ascii.compare a c = Lt.
Proof.
  unfold Ascii.compare. rewrite !N.compare_lt_iff. lia.
Qed.

Lemma string_compare_refl (s : string) : String.compare s s = Eq.
Proof.
  induction s as [|c s IH]; simpl; [done|].
  by rewrite ascii_compare_refl.
Qed.

Lemma string_leb_refl (s : string) : String.leb s s = true.
Proof. unfold String.leb. by rewrite string_compare_refl. Qed.

Lemma string_compare_trans (a b c : string) (r : comparison) :
  r <> Gt ->
  String.compare a b <> Gt -> String.compare b c <> Gt -> String.compare a c <> Gt.
Proof.
  intros _. revert b c.
  induction a as [|x a IH]; intros [|y b] [|z c]; simpl; try done.
  destruct (Ascii.compare x y) eqn:Hxy; try done.
  - apply Ascii.compare_eq_iff in Hxy as ->.
    destruct (Ascii.compare y z) eqn:Hyz; try done.
    intros. by apply (IH b c).
  - intros _. destruct (Ascii.compare y z) eqn:Hyz; try done.
    + apply Ascii.compare_eq_iff in Hyz as ->. by rewrite Hxy.
    + by rewrite (ascii_compare_lt_trans x y z).
Qed.

Lemma string_leb_trans (a b c : string) :
  String.leb a b = true -> String.leb b c = true -> String.leb a c = true.
Proof.
  unfold String.leb. intros Hab Hbc.
  assert (String.compare a c <> Gt) as H.
  { apply (string_compare_trans a b c Eq); [done| |].
    - by destruct (String.compare a b).
    - by destruct (String.compare b c). }
  by destruct (String.compare a c).
Qed.

Lemma string_ltb_leb (a b : string) : String.ltb a b = true -> String.leb a b = true.
Proof. unfold String.ltb, String.leb. by destruct (String.compare a b). Qed.

Lemma string_max_ge_l (a b : string) : String.leb a (string_max a b) = true.
Proof.
  unfold string_max. destruct (String.ltb a b) eqn:E.
  - by apply string_ltb_leb.
  - apply string_leb_refl.
Qed.

End StringOrder.

(** The stable sort returns a permutation of its input whose head is below
    every element. *)
Section SortedFacts.
Context {A : Type} (le : A -> A -> bool).

Lemma insert_sorted_perm (x : A) (l : list A) : Py.insert_sorted le x l ≡ₚ x :: l.
Proof.
  induction l as [|y l IH]; simpl; [done|].
  destruct (le x y); [done|].
  rewrite IH. apply Permutation_swap.
Qed.

Lemma sorted_perm (l : list A) : Py.sorted le l ≡ₚ l.
Proof.
  induction l as [|x l IH]; simpl; [done|].
  by rewrite insert_sorted_perm, IH.
Qed.

Lemma sorted_elem_of (x : A) (l : list A) : x ∈ Py.sorted le l <-> x ∈ l.
Proof. by rewrite sorted_perm. Qed.

Lemma sorted_length (l : list A) : length (Py.sorted le l) = length l.
Proof. by rewrite sorted_perm. Qed.

Hypothesis le_total : forall a b, le a b = true \/ le b a = true.
Hypothesis le_trans : forall a b c, le a b = true -> le b c = true -> le a c = true.

Lemma insert_sorted_head (x : A) (l : list A) :
  match l with
  | [] => True
  | y :: _ => below_all le y l
  end ->
  match Py.insert_sorted le x l with
  | [] => False
  | h :: _ => below_all le h (x :: l)
  end.
Proof using le_total le_trans.
  destruct l as [|y l]; simpl.
  - intros _. constructor; [|constructor].
    destruct (le_total x x); done.
  - intros Hy. destruct (le x y) eqn:Hxy.
    + constructor; [destruct (le_total x x); done|].
      eapply Forall_impl; [exact Hy|]. intros z Hz; simpl in Hz. by eapply le_trans.
    + constructor; [|done].
      destruct (le_total x y) as [H|H]; [congruence|done].
Qed.

Lemma sorted_head (l : list A) :
  match Py.sorted le l with
  | [] => l = []
  | h :: _ => below_all le h l
  end.
Proof using le_total le_trans.
  induction l as [|x l IH]; simpl; [done|].
  pose proof (insert_sorted_head x (Py.sorted le l)) as H.
  destruct (Py.sorted le l) as [|y s] eqn:Hs; simpl in IH.
  - subst l. simpl. constructor; [|constructor]. destruct (le_total x x); done.
  - assert (below_all le y (y :: s)) as Hy.
    { unfold below_all in *. rewrite <- Hs. rewrite Forall_forall in IH |- *.
      intros z Hz. apply IH. exact (proj1 (sorted_elem_of z l) Hz). }
    specialize (H Hy).
    destruct (Py.insert_sorted le x (y :: s)) as [|h t]; [done|].
    unfold below_all in *. rewrite Forall_forall in H |- *.
    intros z Hz. apply H. rewrite <- Hs.
    rewrite elem_of_cons in Hz. rewrite elem_of_cons, sorted_elem_of. exact Hz.
Qed.
End SortedFacts.

(** * Credibility *)

Lemma append_cons (c : ascii) (s t : string) : String c s +:+ t = String c (s +:+ t).
Proof. reflexivity. Qed.

Lemma append_nil_l (t : string) : EmptyString +:+ t = t.
Proof. reflexivity. Qed.

Lemma prefix_spec (p s : string) :
  String.prefix p s = true <-> exists post, s = p +:+ post.
Proof.
  revert s. induction p as [|c p IH]; intros s.
  - destruct s; simpl; split; eauto.
  - destruct s as [|d s]; simpl.
    + split; [done|]. by intros [post ?].
    + destruct (Ascii.ascii_dec c d) as [->|Hne].
      * rewrite IH. split; intros [post H]; exists post;
          rewrite append_cons in *; congruence.
      * split; [done|]. intros [post H]. rewrite append_cons in H. congruence.
Qed.

Lemma contains_spec (needle hay : string) :
  Py.contains needle hay = true <-> occurs_in needle hay.
Proof.
  unfold occurs_in. induction hay as [|c hay IH].
  - cbn [Py.contains]. rewrite orb_false_r, prefix_spec. split.
    + intros [post H]. by exists EmptyString, post.
    + intros (pre & post & H). destruct pre; [by exists post|].
      by rewrite append_cons in H.
  - cbn [Py.contains]. rewrite orb_true_iff, IH, prefix_spec. split.
    + intros [[post H]|(pre & post & H)].
      * by exists EmptyString, post.
      * exists (String c pre), post. by rewrite append_cons, H.
    + intros (pre & post & H). destruct pre as [|d pre].
      * left. by exists post.
      * right. exists pre, post. rewrite append_cons in H. congruence.
Qed.

Lemma dict_get_Some {V} (k : string) (v : V) (d : list (string * V)) :
  NoDup (map fst d) -> (Py.dict_get k d = Some v <-> (k, v) ∈ d).
Proof.
  induction d as [|[k' v'] d IH]; simpl; intros Hnd.
  - split; [done|]. by intros ?%elem_of_nil.
  - apply NoDup_cons in Hnd as [Hk' Hnd]. rewrite elem_of_cons.
    destruct (String.eqb_spec k' k) as [->|Hne].
    + split; [intros [= ->]; by left|].
      intros [[= ->]|Hin]; [done|].
      exfalso. apply Hk'. apply (list_elem_of_fmap_2 fst) in Hin. exact Hin.
    + rewrite IH by done. split; [by right|].
      intros [[= -> ->]|?]; done.
Qed.

Lemma dict_get_None {V} (k : string) (d : list (string * V)) :
  Py.dict_get k d = None <-> forall v, (k, v) ∉ d.
Proof.
  induction d as [|[k' v'] d IH]; simpl.
  - split; [|done]. intros _ v. apply not_elem_of_nil.
  - destruct (String.eqb_spec k' k) as [->|Hne].
    + split; [done|]. intros H. destruct (H v'). by left.
    + rewrite IH. split; intros H v.
      * rewrite elem_of_cons. intros [[= -> ->]|?]; [done|]. by apply (H v).
      * intros Hin. apply (H v). by right.
Qed.

Lemma partial_match_Some (name_lower : string) (table : list (string * Z)) (score : Z) :
  partial_match name_lower table = Some score <->
  exists pre key post,
    table = pre ++ (key, score) :: post /\ partial key name_lower
    /\ Forall (fun kv => ~ partial kv.1 name_lower) pre.
Proof.
  unfold partial. induction table as [|[k s] table IH]; simpl.
  - split; [done|]. intros (pre & key & post & H & _). by destruct pre.
  - destruct (Py.contains k name_lower || Py.contains name_lower k) eqn:E.
    + rewrite orb_true_iff, !contains_spec in E. split.
      * intros [= ->]. exists [], k, table. split_and!; [done|done|constructor].
      * intros (pre & key & post & H & Hkey & Hpre).
        destruct pre as [|[k0 s0] pre]; simpl in H.
        -- by injection H as -> -> ->.
        -- injection H as -> -> ->. apply Forall_cons in Hpre as [Hno _]. by destruct Hno.
    + rewrite orb_false_iff in E. destruct E as [E1 E2].
      assert (~ (occurs_in k name_lower \/ occurs_in name_lower k)) as Hno.
      { rewrite <- !contains_spec. rewrite E1, E2. by intros [|]. }
      rewrite IH. split.
      * intros (pre & key & post & -> & Hkey & Hpre).
        exists ((k, s) :: pre), key, post. split_and!; [done|done|by constructor].
      * intros (pre & key & post & H & Hkey & Hpre).
        destruct pre as [|[k0 s0] pre]; simpl in H.
        -- injection H as -> -> ->. by destruct Hno.
        -- injection H as -> -> ->. apply Forall_cons in Hpre as [_ Hpre].
           by exists pre, key, post.
Qed.

Lemma partial_match_None (name_lower : string) (table : list (string * Z)) :
  partial_match name_lower table = None <->
  Forall (fun kv => ~ partial kv.1 name_lower) table.
Proof.
  unfold partial. induction table as [|[k s] table IH]; simpl.
  - split; [constructor|done].
  - rewrite Forall_cons. simpl.
    destruct (Py.contains k name_lower || Py.contains name_lower k) eqn:E.
    + rewrite orb_true_iff, !contains_spec in E. split; [done|]. intros [H _]. by destruct H.
    + rewrite orb_false_iff in E. destruct E as [E1 E2]. rewrite IH.
      split; [|by intros [_ ?]]. intros H. split; [|done].
      rewrite <- !contains_spec. rewrite E1, E2. by intros [|].
Qed.

Lemma SOURCE_CREDIBILITY_keys : NoDup (map fst SOURCE_CREDIBILITY).
Proof. apply (bool_decide_unpack _). vm_compute. reflexivity. Qed.

(** The three tiers of [get_source_credibility] on a non-empty name. *)
Lemma get_source_credibility_tiers (name : string) :
  name <> EmptyString ->
  let name_lower := Py.strip (Py.lower name) in
  let result := get_source_credibility (Some name) in
  (forall score, (name_lower, score) ∈ SOURCE_CREDIBILITY -> result = score)
  /\ ((forall score, (name_lower, score) ∉ SOURCE_CREDIBILITY) ->
      (exists pre key score post,
          SOURCE_CREDIBILITY = pre ++ (key, score) :: post
          /\ partial key name_lower
          /\ Forall (fun kv => ~ partial kv.1 name_lower) pre
          /\ result = score)
      \/ (Forall (fun kv => ~ partial kv.1 name_lower) SOURCE_CREDIBILITY /\ result = 0)).
Proof.
  intros Hne name_lower result.
  assert (result =
            match Py.dict_get name_lower SOURCE_CREDIBILITY with
            | Some score => score
            | None => default 0 (partial_match name_lower SOURCE_CREDIBILITY)
            end) as Hres.
  { unfold result, get_source_credibility. destruct name; [done|].
    fold name_lower. destruct (Py.dict_get _ _); [done|].
    by destruct (partial_match _ _). }
  split.
  - intros score Hin. apply (dict_get_Some _ _ _ SOURCE_CREDIBILITY_keys) in Hin.
    by rewrite Hres, Hin.
  - intros Hnone. apply dict_get_None in Hnone. rewrite Hnone in Hres.
    destruct (partial_match name_lower SOURCE_CREDIBILITY) as [score|] eqn:Hpm.
    + left. apply partial_match_Some in Hpm as (pre & key & post & ? & ? & ?).
      by exists pre, key, score, post.
    + right. by apply partial_match_None in Hpm.
Qed.

(** * Synthesis fallback *)

Lemma key_le_total (a b : Z * string) : key_le a b = true \/ key_le b a = true.
Proof.
  unfold key_le. destruct (Z.ltb_spec a.1 b.1); [by left|].
  destruct (Z.ltb_spec b.1 a.1); [by right|].
  assert (a.1 = b.1) as Heq by lia. rewrite Heq, Z.eqb_refl. simpl.
  apply String.leb_total.
Qed.

Lemma key_le_trans (a b c : Z * string) :
  key_le a b = true -> key_le b c = true -> key_le a c = true.
Proof.
  unfold key_le. rewrite !orb_true_iff, !andb_true_iff, !Z.ltb_lt, !Z.eqb_eq.
  intros [?|[? Hab]] [?|[? Hbc]]; try (left; lia).
  right. split; [lia|]. by eapply string_leb_trans.
Qed.

(** The head of [sort_sources]: a source of the highest credibility, and of
    the earliest timestamp among those. *)
Lemma sort_sources_head (sources : list EventSource.t) :
  match sort_sources sources with
  | [] => sources = []
  | src :: _ => src ∈ sources /\ Forall (fun s => source_le src s = true) sources
  end.
Proof.
  unfold sort_sources.
  pose proof (sorted_head source_le
                (fun a b => key_le_total _ _) (fun a b c => key_le_trans _ _ _) sources) as H.
  fold source_le.
  destruct (Py.sorted source_le sources) as [|src rest] eqn:Hs; [done|].
  split; [|done].
  apply (sorted_elem_of source_le). rewrite Hs. by left.
Qed.

Lemma synthesize_incident_fallback (client : generate) (sources : list EventSource.t) :
  sources <> [] ->
  client (sort_sources sources) = None ->
  exists src,
    src ∈ sources
    /\ Forall (fun s => source_le src s = true) sources
    /\ synthesize_incident client sources =
       Returned
         {| SynthesizedEvent.title := _clean_text (EventSource.headline src);
            SynthesizedEvent.summary := _clean_text (EventSource.summary src);
            SynthesizedEvent.fallout_prediction := EmptyString;
            SynthesizedEvent.severity := 5 |}.
Proof.
  intros Hne Hfail. unfold synthesize_incident. rewrite Hfail.
  pose proof (sort_sources_head sources) as H.
  destruct (sort_sources sources) as [|src rest]; [done|].
  destruct H as [Hin Hle]. exists src. split_and!; done.
Qed.

(** * Deduplication *)

Section DedupeFacts.

Variable md5_hex16 : string -> string.
Variable similarity_threshold : float.

Local Abbreviation loop := (dedupe_loop md5_hex16 similarity_threshold).
Local Abbreviation dedupe := (dedupe_articles md5_hex16 similarity_threshold).
Local Abbreviation hash := (_title_hash md5_hex16).
Local Abbreviation keywords_of a := (_extract_keywords (Article.title a)).
Local Abbreviation skipped := (skipped md5_hex16 similarity_threshold).
Local Abbreviation remember := (remember md5_hex16).
Local Abbreviation duplicate_of := (duplicate_of md5_hex16 similarity_threshold).

Lemma dedupe_loop_cons (st : seen) (a : Article.t) (rest : list Article.t) :
  loop st (a :: rest) =
  if skipped st a then loop st rest else a :: loop (remember st a) rest.
Proof.
  unfold skipped, remember. cbn [dedupe_loop].
  destruct (decide (_normalize_url (Article.url a) ∈ seen_urls st)) as [Hu|Hu].
  { by rewrite (bool_decide_eq_true_2 _ Hu). }
  rewrite (bool_decide_eq_false_2 _ Hu). cbn [orb].
  destruct (decide (hash (Article.title a) ∈ seen_title_hashes st)) as [Hh|Hh].
  { by rewrite (bool_decide_eq_true_2 _ Hh). }
  rewrite (bool_decide_eq_false_2 _ Hh). cbn [orb].
  destruct (decide (keywords_of a ≠ ∅)) as [Hk|Hk].
  - rewrite (bool_decide_eq_true_2 _ Hk). cbn [andb].
    by destruct (similar_to_seen _ _ _).
  - by rewrite (bool_decide_eq_false_2 _ Hk).
Qed.

Lemma dedupe_loop_sublist (st : seen) (xs : list Article.t) : loop st xs `sublist_of` xs.
Proof.
  revert st. induction xs as [|a xs IH]; intros st; [constructor|].
  rewrite dedupe_loop_cons. destruct (skipped st a).
  - by apply sublist_cons.
  - by apply sublist_skip.
Qed.

Lemma dedupe_loop_app (st : seen) (xs ys : list Article.t) :
  loop st (xs ++ ys) = loop st xs ++ loop (fold_left remember (loop st xs) st) ys.
Proof.
  revert st. induction xs as [|a xs IH]; intros st; [done|].
  rewrite <- app_comm_cons, !dedupe_loop_cons.
  destruct (skipped st a); [apply IH|].
  rewrite IH. done.
Qed.

Lemma dedupe_loop_idempotent (st : seen) (xs : list Article.t) :
  loop st (loop st xs) = loop st xs.
Proof.
  revert st. induction xs as [|a xs IH]; intros st; [done|].
  rewrite dedupe_loop_cons. destruct (skipped st a) eqn:E; [apply IH|].
  rewrite dedupe_loop_cons, E. by rewrite IH.
Qed.

(** What the state holds after the articles of [kept] have been kept. *)
Lemma remembered_urls (kept : list Article.t) (u : string) :
  u ∈ seen_urls (fold_left remember kept seen_nothing)
  <-> exists y, y ∈ kept /\ _normalize_url (Article.url y) = u.
Proof.
  induction kept as [|a kept IH] using rev_ind.
  - simpl. split; [set_solver|]. intros (y & Hy & _). by apply elem_of_nil in Hy.
  - rewrite fold_left_app. simpl. rewrite elem_of_union, IH, elem_of_singleton.
    split.
    + intros [(y & Hy & <-)| ->].
      * exists y. split; [|done]. apply elem_of_app. by left.
      * exists a. split; [|done]. apply elem_of_app. right. by left.
    + intros (y & Hy & <-). apply elem_of_app in Hy as [Hy|Hy].
      * left. by exists y.
      * apply list_elem_of_singleton in Hy as ->. by right.
Qed.

Lemma remembered_hashes (kept : list Article.t) (h : string) :
  h ∈ seen_title_hashes (fold_left remember kept seen_nothing)
  <-> exists y, y ∈ kept /\ hash (Article.title y) = h.
Proof.
  induction kept as [|a kept IH] using rev_ind.
  - simpl. split; [set_solver|]. intros (y & Hy & _). by apply elem_of_nil in Hy.
  - rewrite fold_left_app. simpl. rewrite elem_of_union, IH, elem_of_singleton.
    split.
    + intros [(y & Hy & <-)| ->].
      * exists y. split; [|done]. apply elem_of_app. by left.
      * exists a. split; [|done]. apply elem_of_app. right. by left.
    + intros (y & Hy & <-). apply elem_of_app in Hy as [Hy|Hy].
      * left. by exists y.
      * apply list_elem_of_singleton in Hy as ->. by right.
Qed.

Lemma remembered_keywords (kept : list Article.t) (k : gset string) :
  k ∈ seen_keywords (fold_left remember kept seen_nothing)
  <-> exists y, y ∈ kept /\ keywords_of y = k /\ k ≠ ∅.
Proof.
  induction kept as [|a kept IH] using rev_ind.
  - simpl. split; [by intros ?%elem_of_nil|].
    intros (y & Hy & _). by apply elem_of_nil in Hy.
  - rewrite fold_left_app. simpl.
    destruct (decide (keywords_of a ≠ ∅)) as [Hk|Hk].
    + rewrite elem_of_app, IH, list_elem_of_singleton. split.
      * intros [(y & Hy & <- & Hne)| ->].
        -- exists y. split; [|done]. apply elem_of_app. by left.
        -- exists a. split; [|done]. apply elem_of_app. right. by left.
      * intros (y & Hy & <- & Hne). apply elem_of_app in Hy as [Hy|Hy].
        -- left. by exists y.
        -- apply list_elem_of_singleton in Hy as ->. by right.
    + rewrite IH. split.
      * intros (y & Hy & <- & Hne). exists y. split; [|done].
        apply elem_of_app. by left.
      * intros (y & Hy & <- & Hne). apply elem_of_app in Hy as [Hy|Hy].
        -- by exists y.
        -- apply list_elem_of_singleton in Hy as ->. done.
Qed.

Lemma similar_to_seen_spec (kw : gset string) (kws : list (gset string)) :
  kw ≠ ∅ ->
  similar_to_seen similarity_threshold kw kws = true
  <-> exists seen_kw, seen_kw ∈ kws
                      /\ PyNum.ge (jaccard kw seen_kw) similarity_threshold = true.
Proof.
  intros Hne. unfold similar_to_seen. rewrite existsb_exists.
  assert (forall seen_kw, bool_decide (0 < size (kw ∪ seen_kw))%nat = true) as Hpos.
  { intros seen_kw. apply bool_decide_eq_true_2.
    destruct (size (kw ∪ seen_kw)) eqn:E; [|lia].
    apply size_empty_inv in E. apply leibniz_equiv in E.
    exfalso. apply Hne. apply leibniz_equiv. set_solver. }
  split.
  - intros (seen_kw & Hin & H). rewrite Hpos in H. exists seen_kw.
    split; [by apply list_elem_of_In|done].
  - intros (seen_kw & Hin & H). exists seen_kw.
    split; [by apply list_elem_of_In|]. by rewrite Hpos.
Qed.

Lemma skipped_spec (kept : list Article.t) (a : Article.t) :
  skipped (fold_left remember kept seen_nothing) a = true
  <-> Exists (fun y => duplicate_of y a) kept.
Proof.
  unfold skipped, duplicate_of.
  rewrite !orb_true_iff, andb_true_iff, !bool_decide_eq_true.
  rewrite remembered_urls, remembered_hashes, Exists_exists.
  split.
  - intros [[(y & Hy & H)|(y & Hy & H)]|[Hne H]].
    + exists y. auto.
    + exists y. auto.
    + apply (similar_to_seen_spec _ _ Hne) in H as (k & Hk & H).
      apply remembered_keywords in Hk as (y & Hy & <- & Hy0).
      exists y. split; [done|]. right. right. done.
  - intros (y & Hy & [H|[H|(Hne & Hy0 & H)]]).
    + left. left. by exists y.
    + left. right. by exists y.
    + right. split; [done|]. apply (similar_to_seen_spec _ _ Hne).
      exists (keywords_of y). split; [|done].
      apply remembered_keywords. by exists y.
Qed.

Lemma dedupe_snoc (pre : list Article.t) (a : Article.t) (post : list Article.t) :
  exists tail,
    (Exists (fun y => duplicate_of y a) (dedupe pre)
     /\ dedupe (pre ++ a :: post) = dedupe pre ++ tail)
    \/ (Forall (fun y => ~ duplicate_of y a) (dedupe pre)
        /\ dedupe (pre ++ a :: post) = dedupe pre ++ a :: tail).
Proof.
  unfold dedupe_articles. fold seen_nothing.
  rewrite dedupe_loop_app, dedupe_loop_cons.
  destruct (skipped _ a) eqn:E.
  - eexists. left. split; [|done]. by apply skipped_spec.
  - eexists. right. split; [|done].
    apply Forall_Exists_neg. intros H%skipped_spec. congruence.
Qed.

(** Two articles whose titles hash alike: the second is dropped. *)
Lemma dedupe_pair_same_hash (a b : Article.t) :
  hash (Article.title a) = hash (Article.title b) -> dedupe [a; b] = [a].
Proof.
  intros Hh. unfold dedupe_articles. fold seen_nothing.
  rewrite dedupe_loop_cons.
  assert (skipped seen_nothing a = false) as ->.
  { apply not_true_is_false. intros H. apply (skipped_spec []) in H.
    by apply Exists_nil in H. }
  rewrite dedupe_loop_cons.
  assert (skipped (remember seen_nothing a) b = true) as ->; [|done].
  apply (skipped_spec [a]). apply Exists_cons. left. right. by left.
Qed.

End DedupeFacts.

(** * Grouping *)

Lemma bind_Returned {A B} (m : outcome A) (k : A -> outcome B) (b : B) :
  m ≫= k = Returned b <-> exists a, m = Returned a /\ k a = Returned b.
Proof.
  destruct m as [a|e]; simpl; split.
  - intros H. by exists a.
  - by intros (a' & [= ->] & H).
  - done.
  - by intros (a' & [=] & _).
Qed.

Section GroupingFacts.

Variable sha256_hex16 : string -> string.
Variable fromisoformat : string -> option datetime.t.

Local Abbreviation matches := (IncidentGroup.matches fromisoformat).
Local Abbreviation step := (group_step sha256_hex16 fromisoformat).
Local Abbreviation source_of := (make_source sha256_hex16).
Local Abbreviation within_window := (within_window fromisoformat).
Local Abbreviation fits := (fits fromisoformat).
Local Abbreviation founded := (founded sha256_hex16).
Local Abbreviation attached := (attached sha256_hex16).

Lemma any_within_spec (article_dt : datetime.t) (sources : list EventSource.t) (b : bool) :
  IncidentGroup.any_within fromisoformat article_dt sources = Returned b ->
  b = true <->
  exists source source_dt td,
    source ∈ sources
    /\ fromisoformat (utc_suffix (EventSource.timestamp source)) = Some source_dt
    /\ datetime.sub article_dt source_dt = Returned td
    /\ IncidentGroup.le_hours (IncidentGroup.hours_of td) GROUPING_TIME_HOURS = true.
Proof.
  revert b. induction sources as [|s sources IH]; intros b; simpl.
  - intros [= <-]. split; [done|]. intros (? & ? & ? & ?%elem_of_nil & _). done.
  - destruct (fromisoformat (utc_suffix (EventSource.timestamp s))) as [source_dt|] eqn:Hp.
    + intros (td & Htd & H)%bind_Returned.
      destruct (IncidentGroup.le_hours _ _) eqn:Hle.
      * injection H as <-. split; [|done]. intros _.
        exists s, source_dt, td. split_and!; [by left|done..].
      * rewrite (IH b H). split.
        -- intros (s' & dt' & td' & Hin & ?). exists s', dt', td'. split; [by right|done].
        -- intros (s' & dt' & td' & Hin & Hp' & Htd' & Hle').
           apply elem_of_cons in Hin as [->|Hin]; [|by exists s', dt', td'].
           congruence.
    + intros H. rewrite (IH b H). split.
      * intros (s' & dt' & td' & Hin & ?). exists s', dt', td'. split; [by right|done].
      * intros (s' & dt' & td' & Hin & Hp' & ?).
        apply elem_of_cons in Hin as [->|Hin]; [congruence|by exists s', dt', td'].
Qed.

Lemma matches_spec (group : IncidentGroup.t) (category : string) (lng lat : float)
    (timestamp : string) (b : bool) :
  matches group category lng lat timestamp = Returned b ->
  b = true <-> fits group category lng lat timestamp.
Proof.
  unfold IncidentGroup.matches, fits, within_window.
  destruct (IncidentGroup.sources group) as [|s0 rest] eqn:Hsrc.
  { intros [= <-]. split; [done|]. intros (_ & _ & s & ?%elem_of_nil & _). done. }
  destruct (String.eqb_spec (IncidentGroup.category group) category) as [Hc|Hc]; simpl.
  2:{ intros [= <-]. split; [done|]. by intros [? _]. }
  rewrite Hc.
  destruct (PyNum.gt _ _) eqn:Hd.
  { intros [= <-]. split; [done|]. by intros (_ & ? & _). }
  destruct (fromisoformat (utc_suffix timestamp)) as [article_dt|] eqn:Hp.
  2:{ intros [= <-]. split; [done|]. intros (_ & _ & s & _ & ? & ? & ? & ? & _). done. }
  intros H. rewrite (any_within_spec article_dt (s0 :: rest) b H). split.
  - intros (s & sdt & td & Hin & ? & ? & ?). split_and!; [done..|].
    exists s. split; [done|]. by exists article_dt, sdt, td.
  - intros (_ & _ & s & Hin & adt & sdt & td & [= <-] & ? & ? & ?).
    by exists s, sdt, td.
Qed.

Lemma find_group_spec (groups : list IncidentGroup.t) (category : string)
    (lng lat : float) (timestamp : string) (r : option nat) :
  find_group fromisoformat groups category lng lat timestamp = Returned r ->
  match r with
  | Some i =>
      exists group,
        groups !! i = Some group
        /\ fits group category lng lat timestamp
        /\ forall j earlier, (j < i)%nat -> groups !! j = Some earlier ->
                             ~ fits earlier category lng lat timestamp
  | None => Forall (fun group => ~ fits group category lng lat timestamp) groups
  end.
Proof.
  revert r. induction groups as [|g groups IH]; intros r; simpl.
  - intros [= <-]. constructor.
  - intros (m & Hm & H)%bind_Returned. pose proof (matches_spec _ _ _ _ _ _ Hm) as Hfit.
    destruct m.
    + injection H as <-. exists g. split_and!; [done|by apply Hfit|]. intros j ? Hj. lia.
    + apply bind_Returned in H as (r' & Hr' & [= <-]).
      assert (~ fits g category lng lat timestamp) as Hg.
      { intros Hf. apply Hfit in Hf. done. }
      specialize (IH r' Hr'). destruct r' as [i|]; simpl.
      * destruct IH as (group & Hi & Hf & Hearlier).
        exists group. split_and!; [done..|].
        intros [|j] earlier Hj; simpl; [by intros [= <-]|].
        apply Hearlier. lia.
      * by constructor.
Qed.

Lemma group_step_filtered (groups : list IncidentGroup.t) (article : Article.t)
    (enriched : EnrichedArticle.t) :
  get_source_credibility (Article.source_name article) < 0 ->
  step groups (article, enriched) = Returned groups.
Proof. intros H. unfold group_step. by rewrite (proj2 (Z.ltb_lt _ _) H). Qed.

Lemma group_step_first_fit (groups groups' : list IncidentGroup.t) (article : Article.t)
    (enriched : EnrichedArticle.t) :
  0 <= get_source_credibility (Article.source_name article) ->
  step groups (article, enriched) = Returned groups' ->
  let category := EnrichedArticle.category enriched in
  let lng := EnrichedArticle.longitude enriched in
  let lat := EnrichedArticle.latitude enriched in
  let timestamp := Article.publishedAt article in
  (exists i group,
      groups !! i = Some group
      /\ fits group category lng lat timestamp
      /\ (forall j earlier, (j < i)%nat -> groups !! j = Some earlier ->
                            ~ fits earlier category lng lat timestamp)
      /\ groups' = <[i := attached group article enriched]> groups)
  \/ (Forall (fun group => ~ fits group category lng lat timestamp) groups
      /\ groups' = groups ++ [founded article enriched]).
Proof.
  intros Hcred. unfold group_step.
  rewrite (proj2 (Z.ltb_ge _ _) Hcred).
  intros (r & Hr & H)%bind_Returned. apply find_group_spec in Hr.
  destruct r as [i|]; injection H as <-.
  - left. destruct Hr as (group & Hi & Hf & Hearlier).
    exists i, group. split_and!; [done..|].
    apply list_eq. intros j. rewrite list_lookup_alter.
    destruct (decide (i = j)) as [<-|Hne].
    + rewrite list_lookup_insert_eq by (by apply lookup_lt_Some in Hi). by rewrite Hi.
    + by rewrite list_lookup_insert_ne.
  - right. done.
Qed.

Lemma group_loop_app (groups : list IncidentGroup.t)
    (xs ys : list (Article.t * EnrichedArticle.t)) :
  group_loop sha256_hex16 fromisoformat groups (xs ++ ys) =
  group_loop sha256_hex16 fromisoformat groups xs
    ≫= fun groups' => group_loop sha256_hex16 fromisoformat groups' ys.
Proof.
  revert groups. induction xs as [|x xs IH]; intros groups; simpl; [done|].
  destruct (step groups x) as [groups'|e]; simpl; [apply IH|done].
Qed.

Lemma group_by_incident_snoc (xs : list (Article.t * EnrichedArticle.t))
    (item : Article.t * EnrichedArticle.t) :
  group_by_incident sha256_hex16 fromisoformat (xs ++ [item]) =
  group_by_incident sha256_hex16 fromisoformat xs ≫= fun groups => step groups item.
Proof.
  unfold group_by_incident. rewrite group_loop_app.
  destruct (group_loop _ _ [] xs) as [groups|e]; simpl; [|done].
  by destruct (step groups item).
Qed.

(** The centroid after an attachment. *)
Lemma add_source_centroid (group : IncidentGroup.t) (source : EventSource.t)
    (severity : Z) (lng lat : float) :
  let n := PyNum.float_of_len (length (IncidentGroup.sources group) + 1) in
  let n1 := PyNum.float_of_len (length (IncidentGroup.sources group)) in
  let group' := IncidentGroup.add_source group source severity lng lat in
  IncidentGroup.lng group' = ((IncidentGroup.lng group * n1 + lng) / n)%float
  /\ IncidentGroup.lat group' = ((IncidentGroup.lat group * n1 + lat) / n)%float
  /\ IncidentGroup.sources group' = IncidentGroup.sources group ++ [source]
  /\ IncidentGroup.category group' = IncidentGroup.category group.
Proof.
  simpl. unfold IncidentGroup.running_mean. rewrite length_app. simpl.
  replace (length (IncidentGroup.sources group) + 1 - 1)%nat
    with (length (IncidentGroup.sources group)) by lia.
  done.
Qed.

Lemma get_grouping_distance_table (category : string) :
  get_grouping_distance "MILITARY" = 0.1%float
  /\ get_grouping_distance "UNREST" = 0.3%float
  /\ get_grouping_distance "DIPLOMACY" = 0.5%float
  /\ get_grouping_distance "ECONOMY" = 0.5%float
  /\ (category ∉ ["MILITARY"; "UNREST"; "DIPLOMACY"; "ECONOMY"] ->
      get_grouping_distance category = 0.5%float).
Proof.
  split_and!; try reflexivity.
  intros Hc. unfold get_grouping_distance, GROUPING_DISTANCE_DEGREES. cbn [Py.dict_get].
  repeat match goal with
         | |- context [String.eqb ?k category] =>
             destruct (String.eqb_spec k category) as [<-|_]; [exfalso; apply Hc; set_solver|]
         end.
  done.
Qed.

End GroupingFacts.

Section ReliableSources.

Variable sha256_hex16 : string -> string.
Variable fromisoformat : string -> option datetime.t.

Local Abbreviation step := (group_step sha256_hex16 fromisoformat).
Local Abbreviation loop := (group_loop sha256_hex16 fromisoformat).
Local Abbreviation aware_or_unparsed := (aware_or_unparsed fromisoformat).
Local Abbreviation aware_groups := (aware_groups fromisoformat).

Lemma stored_name_credibility (source_name : option string) :
  0 <= get_source_credibility source_name ->
  0 <= get_source_credibility (Some (name_or_unknown source_name)).
Proof.
  destruct source_name as [[|c name]|]; simpl name_or_unknown; [|done|].
  - intros _. vm_compute. discriminate.
  - intros _. vm_compute. discriminate.
Qed.

Lemma add_source_reliable (group : IncidentGroup.t) (source : EventSource.t)
    (severity : Z) (lng lat : float) :
  Forall (fun s => 0 <= get_source_credibility (Some (EventSource.source_name s)))
    (IncidentGroup.sources group) ->
  0 <= get_source_credibility (Some (EventSource.source_name source)) ->
  Forall (fun s => 0 <= get_source_credibility (Some (EventSource.source_name s)))
    (IncidentGroup.sources (IncidentGroup.add_source group source severity lng lat)).
Proof.
  intros Hg Hs. simpl. apply Forall_app. split; [done|]. by constructor.
Qed.

Lemma group_step_reliable (groups groups' : list IncidentGroup.t)
    (item : Article.t * EnrichedArticle.t) :
  reliable groups -> step groups item = Returned groups' -> reliable groups'.
Proof.
  intros Hrel. destruct item as [article enriched]. unfold group_step.
  destruct (Z.ltb_spec (get_source_credibility (Article.source_name article)) 0) as [|Hc].
  { by intros [= <-]. }
  intros (r & _ & H)%bind_Returned.
  assert (0 <= get_source_credibility
                 (Some (EventSource.source_name (make_source sha256_hex16 article enriched))))
    as Hsrc by (by apply stored_name_credibility).
  destruct r as [i|]; injection H as <-; unfold reliable.
  - apply Forall_alter; [done|]. intros g Hg Hgi.
    apply add_source_reliable; [done|done].
  - apply Forall_app. split; [done|]. constructor; [|done].
    apply add_source_reliable; [constructor|done].
Qed.

Lemma group_loop_reliable (groups groups' : list IncidentGroup.t)
    (xs : list (Article.t * EnrichedArticle.t)) :
  reliable groups -> loop groups xs = Returned groups' -> reliable groups'.
Proof.
  revert groups. induction xs as [|x xs IH]; intros groups Hrel; simpl.
  - by intros [= <-].
  - intros (g1 & Hstep & H)%bind_Returned.
    eapply IH; [|exact H]. by eapply group_step_reliable.
Qed.

(** Unreliable articles leave no trace: the loop runs as on the list
    without them. *)
Lemma group_loop_filter (groups : list IncidentGroup.t)
    (xs : list (Article.t * EnrichedArticle.t)) :
  loop groups xs = loop groups (filter is_reliable xs).
Proof.
  revert groups. induction xs as [|[article enriched] xs IH]; intros groups; [done|].
  rewrite filter_cons. destruct (decide (is_reliable (article, enriched))) as [Hr|Hr].
  - cbn [group_loop].
    destruct (step groups (article, enriched)); simpl; [apply IH|done].
  - cbn [group_loop]. rewrite group_step_filtered; [apply IH|].
    unfold is_reliable in Hr. simpl in Hr. lia.
Qed.

(** ** The loop returns when no aware timestamp meets a naive one *)

Lemma any_within_returns (article_dt : datetime.t) (sources : list EventSource.t) :
  is_Some (datetime.tzinfo article_dt) ->
  Forall (fun source => aware_or_unparsed (EventSource.timestamp source)) sources ->
  exists b, IncidentGroup.any_within fromisoformat article_dt sources = Returned b.
Proof.
  intros [oa Ha]. induction 1 as [|s sources Hs _ IH]; simpl; [by eexists|].
  destruct (fromisoformat (utc_suffix (EventSource.timestamp s))) as [sdt|] eqn:Hp; [|done].
  destruct (Hs sdt Hp) as [ob Hb].
  unfold datetime.sub. rewrite Ha, Hb. simpl.
  destruct (IncidentGroup.le_hours _ _); [by eexists|done].
Qed.

Lemma matches_returns (group : IncidentGroup.t) (category : string) (lng lat : float)
    (timestamp : string) :
  aware_or_unparsed timestamp ->
  Forall (fun source => aware_or_unparsed (EventSource.timestamp source))
    (IncidentGroup.sources group) ->
  exists b, IncidentGroup.matches fromisoformat group category lng lat timestamp = Returned b.
Proof.
  intros Ht Hg. unfold IncidentGroup.matches.
  destruct (IncidentGroup.sources group) as [|s0 rest] eqn:Hsrc; [by eexists|].
  destruct (negb _); [by eexists|].
  destruct (PyNum.gt _ _); [by eexists|].
  destruct (fromisoformat (utc_suffix timestamp)) as [dt|] eqn:Hp; [|by eexists].
  apply any_within_returns; [by apply Ht|done].
Qed.

Lemma find_group_returns (groups : list IncidentGroup.t) (category : string)
    (lng lat : float) (timestamp : string) :
  aware_or_unparsed timestamp -> aware_groups groups ->
  exists r, find_group fromisoformat groups category lng lat timestamp = Returned r.
Proof.
  intros Ht. induction 1 as [|g groups Hg _ IH]; simpl; [by eexists|].
  destruct (matches_returns g category lng lat timestamp Ht Hg) as [b ->]. simpl.
  destruct b; [by eexists|]. destruct IH as [r ->]. simpl. by eexists.
Qed.

Lemma group_step_returns (groups : list IncidentGroup.t)
    (item : Article.t * EnrichedArticle.t) :
  aware_or_unparsed (Article.publishedAt item.1) -> aware_groups groups ->
  exists groups', step groups item = Returned groups' /\ aware_groups groups'.
Proof.
  destruct item as [article enriched]. simpl. intros Ht Hg. unfold group_step.
  destruct (_ <? 0); [by eexists|].
  destruct (find_group_returns groups (EnrichedArticle.category enriched)
              (EnrichedArticle.longitude enriched) (EnrichedArticle.latitude enriched)
              _ Ht Hg) as [r ->].
  simpl. destruct r as [i|]; eexists; (split; [done|]); unfold aware_groups.
  - apply Forall_alter; [done|]. intros g Hi Hgi. simpl. apply Forall_app. split.
    + done.
    + by constructor.
  - apply Forall_app. split; [done|]. constructor; [|done]. simpl. by constructor.
Qed.

Lemma group_loop_returns (groups : list IncidentGroup.t)
    (xs : list (Article.t * EnrichedArticle.t)) :
  Forall (fun item => aware_or_unparsed (Article.publishedAt item.1)) xs ->
  aware_groups groups ->
  exists groups', loop groups xs = Returned groups'.
Proof.
  intros Hxs. revert groups.
  induction Hxs as [|x xs Hx _ IH]; intros groups Hg; cbn [group_loop].
  - by eexists.
  - destruct (group_step_returns groups x Hx Hg) as (g1 & -> & Hg1). simpl. by apply IH.
Qed.

End ReliableSources.

(** * Dicts in insertion order *)

Section DictFacts.
Context {V : Type}.
Implicit Types (d : list (string * V)) (k : string) (v : V).

Lemma dict_get_elem_of k v d : Py.dict_get k d = Some v -> (k, v) ∈ d.
Proof.
  induction d as [|[k' v'] d IH]; simpl; [done|].
  destruct (String.eqb_spec k' k) as [->|Hne].
  - intros [= ->]. by left.
  - intros H. right. by apply IH.
Qed.

Lemma dict_get_key_elem_of k d : is_Some (Py.dict_get k d) <-> k ∈ map fst d.
Proof.
  induction d as [|[k' v'] d IH]; simpl.
  - split; [by intros [? ?]|by intros ?%elem_of_nil].
  - rewrite elem_of_cons. destruct (String.eqb_spec k' k) as [->|Hne].
    + split; [by left|by eexists].
    + rewrite IH. split; [by right|]. intros [->|?]; done.
Qed.

Lemma dict_set_absent k v d : Py.dict_get k d = None -> dict_set k v d = d ++ [(k, v)].
Proof.
  induction d as [|[k' v'] d IH]; simpl; [done|].
  destruct (String.eqb_spec k' k); [done|]. intros H. by rewrite IH.
Qed.

Lemma dict_set_present k v d :
  is_Some (Py.dict_get k d) -> dict_set k v d = dict_update k (fun _ => v) d.
Proof.
  induction d as [|[k' v'] d IH]; simpl; [by intros [? ?]|].
  destruct (String.eqb_spec k' k); [done|]. intros H. by rewrite IH.
Qed.

Lemma dict_update_keys k (f : V -> V) d : map fst (dict_update k f d) = map fst d.
Proof.
  induction d as [|[k' v'] d IH]; simpl; [done|].
  destruct (String.eqb k' k); simpl; by rewrite ?IH.
Qed.

Lemma dict_update_absent k (f : V -> V) d : Py.dict_get k d = None -> dict_update k f d = d.
Proof.
  induction d as [|[k' v'] d IH]; simpl; [done|].
  destruct (String.eqb k' k); [done|]. intros H. by rewrite IH.
Qed.

(** An update rewrites one entry in place. *)
Lemma dict_update_split k (f : V -> V) d v :
  Py.dict_get k d = Some v ->
  exists pre post,
    d = pre ++ (k, v) :: post /\ dict_update k f d = pre ++ (k, f v) :: post.
Proof.
  induction d as [|[k' v'] d IH]; simpl; [done|].
  destruct (String.eqb_spec k' k) as [->|Hne].
  - intros [= ->]. by exists [], d.
  - intros H. destruct (IH H) as (pre & post & -> & ->).
    by exists ((k', v') :: pre), post.
Qed.
End DictFacts.

(** * How a persisted event changes *)

Lemma evolves_refl (e : Event.t) : evolves e e.
Proof. unfold evolves. split_and!; [done|done|lia|apply string_leb_refl]. Qed.

Lemma evolves_trans (a b c : Event.t) : evolves a b -> evolves b c -> evolves a c.
Proof.
  intros (? & ? & ? & ?) (? & ? & ? & ?). unfold evolves.
  split_and!; [congruence|congruence|lia|by eapply string_leb_trans].
Qed.

Lemma merge_into_evolves (existing event_dict : Event.t) (fresh : list EventSource.t) :
  evolves existing (merge_into existing event_dict fresh).1.
Proof.
  unfold merge_into. destruct (2 <=? _); simpl; unfold evolves; simpl;
    (split_and!; [done|done|lia|apply string_max_ge_l]).
Qed.

Lemma apply_synthesis_evolves (synthesized : SynthesizedEvent.t) (event : Event.t) :
  evolves event (apply_synthesis synthesized event).
Proof.
  unfold apply_synthesis. simpl.
  destruct (Event.severity event <? SynthesizedEvent.severity synthesized) eqn:H;
    unfold evolves; simpl.
  - apply Z.ltb_lt in H. split_and!; [done|done|lia|apply string_leb_refl].
  - split_and!; [done|done|lia|apply string_leb_refl].
Qed.

Lemma extends_refl (d : list (string * Event.t)) : extends d d.
Proof.
  exists d, []. split; [by rewrite app_nil_r|].
  induction d; constructor; [split; [done|apply evolves_refl]|done].
Qed.

Lemma extends_trans (a b c : list (string * Event.t)) :
  extends a b -> extends b c -> extends a c.
Proof.
  intros (b1 & b2 & -> & Hab) (c1 & c2 & -> & Hbc).
  apply Forall2_app_inv_l in Hbc as (c11 & c12 & Hb1 & Hb2 & ->).
  exists c11, (c12 ++ c2). split; [by rewrite app_assoc|].
  eapply Forall2_trans; [|exact Hab|exact Hb1].
  intros x y z [? ?] [? ?]. split; [congruence|by eapply evolves_trans].
Qed.

Lemma extends_app (d new : list (string * Event.t)) : extends d (d ++ new).
Proof.
  exists d, new. split; [done|].
  induction d; constructor; [split; [done|apply evolves_refl]|done].
Qed.

Lemma extends_update (k : string) (f : Event.t -> Event.t) (d : list (string * Event.t)) :
  (forall e, evolves e (f e)) -> extends d (dict_update k f d).
Proof.
  intros Hf. exists (dict_update k f d), []. split; [by rewrite app_nil_r|].
  induction d as [|[k' v'] d IH]; simpl; [constructor|].
  destruct (String.eqb k' k); constructor; simpl; try done.
  - clear IH. induction d; constructor; [split; [done|apply evolves_refl]|done].
  - split; [done|apply evolves_refl].
Qed.

Lemma extends_lookup (d d' : list (string * Event.t)) (k : string) (e : Event.t) :
  extends d d' -> (k, e) ∈ d -> exists e', (k, e') ∈ d' /\ evolves e e'.
Proof.
  intros (d1 & d2 & -> & H) Hin.
  apply list_elem_of_lookup in Hin as [i Hi].
  destruct (Forall2_lookup_l _ _ _ _ _ H Hi) as ([k' e'] & Hi' & Hk & He). simpl in *.
  subst k'. exists e'. split; [|done].
  apply elem_of_app. left. by eapply list_elem_of_lookup_2.
Qed.

Lemma well_keyed_update (k : string) (f : Event.t -> Event.t) (d : list (string * Event.t)) :
  (forall e, Event.id (f e) = Event.id e) -> well_keyed d -> well_keyed (dict_update k f d).
Proof.
  intros Hf [Hnd Hid]. split; [by rewrite dict_update_keys|].
  clear Hnd. induction Hid as [|[k' v'] d Hk Hrest IH]; simpl; [constructor|].
  destruct (String.eqb k' k); constructor; simpl in *; rewrite ?Hf; auto.
Qed.

Lemma well_keyed_set (e : Event.t) (d : list (string * Event.t)) :
  well_keyed d -> well_keyed (dict_set (Event.id e) e d).
Proof.
  intros [Hnd Hid].
  destruct (Py.dict_get (Event.id e) d) as [v|] eqn:Hget.
  - rewrite dict_set_present by (by eexists).
    split; [by rewrite dict_update_keys|].
    clear Hnd Hget. induction Hid as [|[k' v'] d Hk Hrest IH]; simpl; [constructor|].
    destruct (String.eqb_spec k' (Event.id e)); constructor; simpl in *; auto.
  - rewrite dict_set_absent by done. split.
    + rewrite map_app. simpl. apply NoDup_app. split_and!; [done| |apply NoDup_singleton].
      intros k Hk Hk2. apply list_elem_of_singleton in Hk2 as ->.
      apply dict_get_key_elem_of in Hk as [? ?]. congruence.
    + apply Forall_app. split; [done|]. by constructor.
Qed.

Lemma unique_value {V} (d : list (string * V)) (k : string) (v v' : V) :
  NoDup (map fst d) -> (k, v) ∈ d -> (k, v') ∈ d -> v = v'.
Proof.
  induction d as [|[k0 v0] d IH]; simpl; [by intros _ ?%elem_of_nil|].
  intros [Hk Hnd]%NoDup_cons.
  rewrite !elem_of_cons. intros [E1|H1] [E2|H2]; [congruence| | |by apply IH].
  - injection E1 as -> ->. destruct Hk. apply (list_elem_of_fmap_2 fst) in H2. exact H2.
  - injection E2 as -> ->. destruct Hk. apply (list_elem_of_fmap_2 fst) in H1. exact H1.
Qed.

Lemma well_keyed_unique (d : list (string * Event.t)) (k : string) (e e' : Event.t) :
  well_keyed d -> (k, e) ∈ d -> e' ∈ map snd d -> Event.id e' = k -> e' = e.
Proof.
  intros [Hnd Hid] Hin He' Hk.
  apply list_elem_of_fmap in He' as ([k' e''] & -> & Hin'). simpl in *.
  assert (k' = k) as ->.
  { rewrite Forall_forall in Hid. specialize (Hid _ Hin'). simpl in Hid. congruence. }
  by eapply unique_value.
Qed.

Lemma index_by_id_well_keyed (existing_data : list Event.t) :
  well_keyed (index_by_id existing_data).
Proof.
  unfold index_by_id.
  assert (forall d, well_keyed d ->
                    well_keyed (fold_left (fun d e => dict_set (Event.id e) e d)
                                  existing_data d)) as H.
  { induction existing_data as [|e l IH]; intros d Hd; simpl; [done|].
    apply IH. by apply well_keyed_set. }
  apply H. split; constructor.
Qed.

(** The index holds, for each id, the last event of the list with that id. *)
Lemma index_by_id_last (pre post : list Event.t) (e : Event.t) :
  Forall (fun e' => Event.id e' <> Event.id e) post ->
  (Event.id e, e) ∈ index_by_id (pre ++ e :: post).
Proof.
  intros Hpost. unfold index_by_id. rewrite fold_left_app. simpl.
  set (d := fold_left _ pre []).
  assert ((Event.id e, e) ∈ dict_set (Event.id e) e d) as Hin.
  { clear. induction d as [|[k' v'] d IH]; simpl; [by left|].
    destruct (String.eqb_spec k' (Event.id e)) as [->|]; [by left|by right]. }
  revert Hin. generalize (dict_set (Event.id e) e d). clear d.
  induction Hpost as [|e' post Hne _ IH]; intros d Hin; simpl; [done|].
  apply IH. clear IH. induction d as [|[k' v'] d IHd]; simpl.
  - by apply elem_of_nil in Hin.
  - apply elem_of_cons in Hin as [[= <- <-]|Hin].
    + destruct (String.eqb_spec (Event.id e) (Event.id e')); [congruence|by left].
    + destruct (String.eqb_spec k' (Event.id e')) as [->|].
      * right. done.
      * right. by apply IHd.
Qed.

(** * Source ids across the event set *)

Lemma source_ids_app (l1 l2 : list Event.t) :
  source_ids (l1 ++ l2) = source_ids l1 ++ source_ids l2.
Proof. unfold source_ids. by rewrite map_app, concat_app, map_app. Qed.

Lemma source_ids_cons (e : Event.t) (l : list Event.t) :
  source_ids (e :: l) = map EventSource.id (Event.sources e) ++ source_ids l.
Proof. unfold source_ids. simpl. by rewrite map_app. Qed.

Lemma source_ids_submseteq (l1 l2 : list Event.t) :
  l1 ⊆+ l2 -> source_ids l1 ⊆+ source_ids l2.
Proof.
  induction 1 as [|x l1 l2 _ IH|x y l|x l1 l2 _ IH|l1 l2 l3 _ IH1 _ IH2].
  - done.
  - rewrite !source_ids_cons. by apply submseteq_skips_l.
  - rewrite !source_ids_cons, !app_assoc.
    apply submseteq_skips_r, Permutation_submseteq, Permutation_app_comm.
  - rewrite source_ids_cons. by apply submseteq_inserts_l.
  - by etrans.
Qed.

Lemma source_ids_perm (l1 l2 : list Event.t) :
  l1 ≡ₚ l2 -> source_ids l1 ≡ₚ source_ids l2.
Proof.
  intros H. apply (anti_symm submseteq); apply source_ids_submseteq;
    apply Permutation_submseteq; [done|by symmetry].
Qed.

Lemma submseteq_NoDup {A} (l1 l2 : list A) : l1 ⊆+ l2 -> NoDup l2 -> NoDup l1.
Proof.
  intros [k Hk]%submseteq_Permutation. rewrite Hk. by intros [? _]%NoDup_app.
Qed.

(** Each event's own list is free of duplicates when the whole set is. *)
Lemma source_ids_NoDup_each (events : list Event.t) (e : Event.t) :
  NoDup (source_ids events) -> e ∈ events -> NoDup (map EventSource.id (Event.sources e)).
Proof.
  intros Hnd Hin. apply list_elem_of_split in Hin as (l1 & l2 & ->).
  rewrite source_ids_app, source_ids_cons in Hnd.
  apply NoDup_app in Hnd as (_ & _ & Hnd). by apply NoDup_app in Hnd as [? _].
Qed.

Lemma take_unseen_spec (seen : gset string) (sources fresh : list EventSource.t)
    (seen' : gset string) :
  take_unseen seen sources = (fresh, seen') ->
  NoDup (map EventSource.id fresh)
  /\ (forall x, x ∈ map EventSource.id fresh -> x ∉ seen)
  /\ seen' = seen ∪ list_to_set (map EventSource.id fresh)
  /\ fresh `sublist_of` sources.
Proof.
  revert seen fresh seen'. induction sources as [|s sources IH]; intros seen fresh seen'; simpl.
  - intros [= <- <-]. split_and!; [constructor|by intros ? ?%elem_of_nil|set_solver|done].
  - destruct (decide (EventSource.id s ∈ seen)) as [Hs|Hs].
    + intros H. destruct (IH _ _ _ H) as (? & ? & ? & ?).
      split_and!; [done..|]. by apply sublist_cons.
    + destruct (take_unseen _ sources) as [taken seen1] eqn:Ht.
      intros [= <- <-]. destruct (IH _ _ _ Ht) as (Hnd & Hnew & -> & Hsub).
      split_and!.
      * simpl. apply NoDup_cons. split; [|done].
        intros Hin. apply Hnew in Hin. set_solver.
      * simpl. intros x [->|Hx]%elem_of_cons; [done|]. apply Hnew in Hx. set_solver.
      * simpl. set_solver.
      * by apply sublist_skip.
Qed.

Lemma merge_into_sources (existing event_dict : Event.t) (fresh : list EventSource.t) :
  Event.sources (merge_into existing event_dict fresh).1 ≡ₚ Event.sources existing ++ fresh.
Proof.
  unfold merge_into. destruct (2 <=? _); simpl; apply sorted_perm.
Qed.

Lemma merge_into_id (existing event_dict : Event.t) (fresh : list EventSource.t) :
  Event.id (merge_into existing event_dict fresh).1 = Event.id existing.
Proof. unfold merge_into. by destruct (2 <=? _). Qed.

Lemma apply_synthesis_sources (synthesized : SynthesizedEvent.t) (event : Event.t) :
  Event.sources (apply_synthesis synthesized event) = Event.sources event.
Proof. unfold apply_synthesis. by destruct (_ <? _). Qed.

Lemma apply_synthesis_id (synthesized : SynthesizedEvent.t) (event : Event.t) :
  Event.id (apply_synthesis synthesized event) = Event.id event.
Proof. unfold apply_synthesis. by destruct (_ <? _). Qed.

Lemma dict_update_source_ids (k : string) (f : Event.t -> Event.t)
    (d : list (string * Event.t)) (v : Event.t) (fresh : list EventSource.t) :
  Py.dict_get k d = Some v ->
  Event.sources (f v) ≡ₚ Event.sources v ++ fresh ->
  source_ids (map snd (dict_update k f d))
  ≡ₚ source_ids (map snd d) ++ map EventSource.id fresh.
Proof.
  intros Hget Hf. destruct (dict_update_split k f d v Hget) as (pre & post & -> & ->).
  assert (map EventSource.id (Event.sources (f v))
          ≡ₚ map EventSource.id (Event.sources v) ++ map EventSource.id fresh) as Hm.
  { rewrite <- map_app. by apply Permutation_map. }
  rewrite !map_app. simpl. rewrite !source_ids_app, !source_ids_cons, Hm.
  rewrite <- !app_assoc. do 2 apply Permutation_app_head. apply Permutation_app_comm.
Qed.

Lemma dict_update_same_sources (k : string) (f : Event.t -> Event.t)
    (d : list (string * Event.t)) :
  (forall e, Event.sources (f e) = Event.sources e) ->
  source_ids (map snd (dict_update k f d)) = source_ids (map snd d).
Proof.
  intros Hf. induction d as [|[k' v'] d IH]; simpl; [done|].
  destruct (String.eqb k' k); simpl; rewrite !source_ids_cons; by rewrite ?Hf, ?IH.
Qed.

(** The values of the index are among the events of the list. *)
Lemma dict_set_values {V} (k : string) (v : V) (d : list (string * V)) :
  map snd (dict_set k v d) ⊆+ map snd d ++ [v].
Proof.
  induction d as [|[k' v'] d IH]; simpl; [done|].
  destruct (String.eqb k' k); simpl.
  - apply submseteq_cons, Permutation_submseteq, Permutation_cons_append.
  - by apply submseteq_skip.
Qed.

Lemma index_by_id_values (existing_data : list Event.t) :
  map snd (index_by_id existing_data) ⊆+ existing_data.
Proof.
  unfold index_by_id.
  assert (forall d, map snd (fold_left (fun d e => dict_set (Event.id e) e d) existing_data d)
                    ⊆+ map snd d ++ existing_data) as H.
  { induction existing_data as [|e l IH]; intros d; simpl; [by rewrite app_nil_r|].
    etrans; [apply IH|].
    rewrite (cons_middle e (map snd d) l), app_assoc. apply submseteq_skips_r.
    apply dict_set_values. }
  apply (H []).
Qed.

Section MergeFacts.

Variable fromisoformat : string -> option datetime.t.

Local Abbreviation values d := (map snd d).

Lemma find_similar_loop_elem_of new_cat new_coords new_dt threshold hours
    (items : list (string * Event.t)) (key : string) (existing : Event.t) :
  find_similar_loop fromisoformat new_cat new_coords new_dt threshold hours items
  = Returned (Some (key, existing)) ->
  (key, existing) ∈ items.
Proof.
  induction items as [|[k e] items IH]; simpl; [done|].
  destruct (negb _); [intros H; right; by apply IH|].
  destruct (PyNum.gt _ _); [intros H; right; by apply IH|].
  destruct (fromisoformat _); [|intros H; right; by apply IH].
  intros (td & _ & H)%bind_Returned.
  destruct (PyNum.gt _ _); [right; by apply IH|].
  injection H as <- <-. by left.
Qed.

Lemma find_existing_elem_of (st : merge_state) (event : GeoEvent.t) (event_dict : Event.t)
    (key : string) (existing : Event.t) :
  find_existing fromisoformat st event event_dict = Returned (Some (key, existing)) ->
  (key, existing) ∈ existing_by_id st.
Proof.
  unfold find_existing.
  destruct (Py.dict_get _ _) as [e|] eqn:Hget.
  - intros [= <- <-]. by apply dict_get_elem_of.
  - unfold _find_similar_existing_event. destruct (fromisoformat _); [|done].
    apply find_similar_loop_elem_of.
Qed.

Lemma find_existing_None (st : merge_state) (event : GeoEvent.t) (event_dict : Event.t) :
  find_existing fromisoformat st event event_dict = Returned None ->
  Py.dict_get (GeoEvent.id event) (existing_by_id st) = None.
Proof. unfold find_existing. by destruct (Py.dict_get _ _). Qed.

Lemma elem_of_dict_get {V} (k : string) (v : V) (d : list (string * V)) :
  NoDup (map fst d) -> (k, v) ∈ d -> Py.dict_get k d = Some v.
Proof. intros Hnd Hin. by apply dict_get_Some. Qed.

Lemma merge_step_effect (st st' : merge_state) (event : GeoEvent.t) :
  well_keyed (existing_by_id st) ->
  Forall (fun key => key ∈ map fst (existing_by_id st)) (events_needing_synthesis st) ->
  merge_step fromisoformat st event = Returned st' ->
  step_effect st st'.
Proof.
  intros Hwk Hq. unfold merge_step.
  intros (matched & Hm & H)%bind_Returned.
  destruct (take_unseen _ _) as [fresh seen'] eqn:Ht.
  apply take_unseen_spec in Ht as (Hnd & Hnew & -> & _).
  destruct fresh as [|s fresh].
  { assert (st' = {| existing_by_id := existing_by_id st;
                     seen_source_ids := seen_source_ids st ∪ list_to_set [];
                     events_needing_synthesis := events_needing_synthesis st |}) as ->.
    { destruct matched as [[? ?]|]; by injection H as <-. }
    unfold step_effect. simpl. split_and!; [apply extends_refl|done|done|].
    exists []. split_and!; [by rewrite app_nil_r|constructor|by intros ? ?%elem_of_nil|done]. }
  destruct matched as [[key existing]|].
  - apply find_existing_elem_of in Hm.
    pose proof (elem_of_dict_get _ _ _ (proj1 Hwk) Hm) as Hget.
    destruct (merge_into existing (Event.model_dump event) (s :: fresh))
      as [merged queued] eqn:Hmi.
    injection H as <-. unfold step_effect. simpl.
    assert (merged = (merge_into existing (Event.model_dump event) (s :: fresh)).1) as Hmerged
      by (by rewrite Hmi).
    split_and!.
    + eapply extends_trans; [|apply extends_refl].
      destruct (dict_update_split key (fun _ => merged) _ _ Hget) as (pre & post & Hd & ->).
      rewrite Hd. exists (pre ++ (key, merged) :: post), []. split; [by rewrite app_nil_r|].
      apply Forall2_app; [|constructor].
      * clear. induction pre; constructor; [split; [done|apply evolves_refl]|done].
      * simpl. split; [done|]. rewrite Hmerged. apply merge_into_evolves.
      * clear. induction post; constructor; [split; [done|apply evolves_refl]|done].
    + destruct Hwk as [Hk Hid]. split; [by rewrite dict_update_keys|].
      destruct (dict_update_split key (fun _ => merged) _ _ Hget) as (pre & post & Hd & ->).
      rewrite Hd in Hid. apply Forall_app in Hid as [Hpre Hpost].
      apply Forall_cons in Hpost as [Hkey Hpost]. simpl in Hkey.
      apply Forall_app. split; [done|]. constructor; [|done]. simpl.
      by rewrite Hmerged, merge_into_id.
    + rewrite dict_update_keys. destruct queued; [|done].
      apply Forall_app. split; [done|]. constructor; [|done].
      apply (list_elem_of_fmap_2 fst) in Hm. exact Hm.
    + exists (map EventSource.id (s :: fresh)). split_and!; [|done|done|done].
      apply (dict_update_source_ids key (fun _ => merged) _ existing); [done|].
      rewrite Hmerged. apply merge_into_sources.
  - apply find_existing_None in Hm. injection H as <-. unfold step_effect. simpl.
    rewrite (dict_set_absent _ _ _ Hm).
    split_and!.
    + apply extends_app.
    + rewrite <- (dict_set_absent _ _ _ Hm).
      apply (well_keyed_set (Event.set_sources (s :: fresh) (Event.model_dump event))).
      done.
    + eapply Forall_impl; [exact Hq|]. intros k Hk. simpl in Hk.
      rewrite map_app. apply elem_of_app. by left.
    + exists (map EventSource.id (s :: fresh)). split_and!; [|done|done|done].
      rewrite map_app, source_ids_app. apply Permutation_app_head.
      unfold source_ids. simpl. by rewrite app_nil_r.
Qed.

(** The effect of the whole loop, as one step from the first state. *)
Lemma step_effect_trans (a b c : merge_state) :
  step_effect a b -> step_effect b c -> step_effect a c.
Proof.
  intros (Hab & _ & _ & ids1 & Hp1 & Hnd1 & Hnew1 & Hs1)
         (Hbc & Hwk & Hq & ids2 & Hp2 & Hnd2 & Hnew2 & Hs2).
  split_and!; [by eapply extends_trans|done|done|].
  exists (ids1 ++ ids2). split_and!.
  - rewrite Hp2, Hp1. by rewrite app_assoc.
  - apply NoDup_app. split_and!; [done| |done].
    intros x Hx1 Hx2. apply Hnew2 in Hx2. rewrite Hs1 in Hx2. set_solver.
  - intros x [Hx|Hx]%elem_of_app; [by apply Hnew1|].
    apply Hnew2 in Hx. rewrite Hs1 in Hx. set_solver.
  - rewrite Hs2, Hs1. set_solver.
Qed.

Lemma step_effect_refl (st : merge_state) :
  well_keyed (existing_by_id st) ->
  Forall (fun key => key ∈ map fst (existing_by_id st)) (events_needing_synthesis st) ->
  step_effect st st.
Proof.
  intros Hwk Hq. split_and!; [apply extends_refl|done|done|].
  exists []. split_and!; [by rewrite app_nil_r|constructor|by intros ? ?%elem_of_nil|set_solver].
Qed.

Lemma merge_loop_effect (st st' : merge_state) (new_events : list GeoEvent.t) :
  well_keyed (existing_by_id st) ->
  Forall (fun key => key ∈ map fst (existing_by_id st)) (events_needing_synthesis st) ->
  merge_loop fromisoformat st new_events = Returned st' ->
  step_effect st st'.
Proof.
  revert st. induction new_events as [|event rest IH]; intros st Hwk Hq; simpl.
  - intros [= <-]. by apply step_effect_refl.
  - intros (st1 & Hstep & Hloop)%bind_Returned.
    pose proof (merge_step_effect _ _ _ Hwk Hq Hstep) as H1.
    eapply step_effect_trans; [exact H1|].
    destruct H1 as (_ & Hwk1 & Hq1 & _). by apply IH.
Qed.

(** The re-synthesis pass keeps keys and sources, and lets events evolve. *)
Lemma apply_all_effect (by_id : list (string * Event.t))
    (pairs : list (string * SynthesizedEvent.t)) :
  well_keyed by_id ->
  extends by_id (apply_all by_id pairs)
  /\ well_keyed (apply_all by_id pairs)
  /\ source_ids (values (apply_all by_id pairs)) = source_ids (values by_id).
Proof.
  revert by_id. induction pairs as [|[key s] pairs IH]; intros by_id Hwk; simpl.
  - split_and!; [apply extends_refl|done|done].
  - assert (well_keyed (dict_update key (apply_synthesis s) by_id)) as Hwk1.
    { apply well_keyed_update; [|done]. intros e. apply apply_synthesis_id. }
    destruct (IH _ Hwk1) as (Hx & Hw & Hs). split_and!; [|done|].
    + eapply extends_trans; [|exact Hx]. apply extends_update.
      intros e. apply apply_synthesis_evolves.
    + rewrite Hs. apply dict_update_same_sources. intros e. apply apply_synthesis_sources.
Qed.

Lemma resynthesize_effect (gemini_client : option (nat -> generate)) (st : merge_state)
    (by_id : list (string * Event.t)) :
  well_keyed (existing_by_id st) ->
  resynthesize gemini_client st = Returned by_id ->
  extends (existing_by_id st) by_id
  /\ well_keyed by_id
  /\ source_ids (values by_id) = source_ids (values (existing_by_id st)).
Proof.
  intros Hwk. unfold resynthesize.
  destruct (events_needing_synthesis st) as [|k q]; [|destruct gemini_client as [client|]].
  - intros [= <-]. split_and!; [apply extends_refl|done|done].
  - intros (results & _ & [= <-])%bind_Returned. by apply apply_all_effect.
  - intros [= <-]. split_and!; [apply extends_refl|done|done].
Qed.

(** The events the retention sort receives, against the persisted input. *)
Lemma merged_events_effect (new_events : list GeoEvent.t) (existing_data : list Event.t)
    (gemini_client : option (nat -> generate)) (all : list Event.t) :
  merged_events fromisoformat new_events existing_data gemini_client = Returned all ->
  exists by_id added,
    all = values by_id
    /\ extends (index_by_id existing_data) by_id
    /\ well_keyed by_id
    /\ source_ids all ≡ₚ source_ids (values (index_by_id existing_data)) ++ added
    /\ NoDup added
    /\ (forall x, x ∈ added -> x ∉ all_source_ids existing_data).
Proof.
  unfold merged_events.
  intros (st & Hloop & (by_id & Hres & [= <-])%bind_Returned)%bind_Returned.
  apply merge_loop_effect in Hloop as (Hx & Hwk & _ & added & Hp & Hnd & Hnew & _);
    [|apply index_by_id_well_keyed|constructor].
  apply resynthesize_effect in Hres as (Hx' & Hwk' & Hs'); [|done].
  exists by_id, added. split_and!; [done| |done| |done|done].
  - by eapply extends_trans.
  - by rewrite Hs'.
Qed.

End MergeFacts.

Section SortedOrder.
Context {A : Type} (le : A -> A -> bool).
Hypothesis le_total : forall a b, le a b = true \/ le b a = true.
Hypothesis le_trans : forall a b c, le a b = true -> le b c = true -> le a c = true.

Local Abbreviation ordered := (StronglySorted (fun a b => le a b = true)).

Lemma insert_sorted_ordered (x : A) (l : list A) :
  ordered l -> ordered (Py.insert_sorted le x l).
Proof using le_total le_trans.
  induction 1 as [|y l Hl IH Hy]; simpl.
  - repeat constructor.
  - destruct (le x y) eqn:Hxy.
    + constructor; [by constructor|]. constructor; [done|].
      eapply Forall_impl; [exact Hy|]. intros z Hz. simpl in Hz. by eapply le_trans.
    + constructor; [done|].
      assert (le y x = true) as Hyx by (destruct (le_total x y); congruence).
      rewrite (insert_sorted_perm le x l). by constructor.
Qed.

Lemma sorted_ordered (l : list A) : ordered (Py.sorted le l).
Proof using le_total le_trans.
  induction l as [|x l IH]; simpl; [constructor|]. by apply insert_sorted_ordered.
Qed.
End SortedOrder.

(** * Retention *)

Lemma bonus_get_step (severity : Z) :
  default 0 (bonus_get severity SEVERITY_BONUS_HOURS) = severity_bonus severity.
Proof.
  unfold SEVERITY_BONUS_HOURS, bonus_get, severity_bonus.
  destruct (Z.eqb_spec 10 severity) as [<-|H10]; [done|].
  destruct (Z.eqb_spec 9 severity) as [<-|H9]; [done|].
  destruct (Z.eqb_spec 8 severity) as [<-|H8]; [done|].
  destruct (Z.eqb_spec 7 severity) as [<-|H7]; [done|].
  simpl. destruct severity as [|p|p]; try done.
  do 4 (destruct p as [p|p|]; try done).
Qed.

Section RetentionFacts.

Variable fromisoformat : string -> option datetime.t.

Local Abbreviation score := (retention_score fromisoformat).

Lemma retention_score_spec (event : Event.t) (s : datetime.stamp) :
  score event = Returned s ->
  exists dt,
    fromisoformat (utc_suffix (default (Event.timestamp event) (Event.last_updated event)))
    = Some dt
    /\ datetime.stamp_wall s
       = datetime.wall dt + severity_bonus (Event.severity event) * datetime.hour_micros
    /\ datetime.stamp_tz s = datetime.tzinfo dt.
Proof.
  unfold retention_score.
  intros (dt & Hdt & H)%bind_Returned.
  unfold parse_timestamp, Event.last_updated_or_timestamp in Hdt.
  destruct (fromisoformat _) as [dt'|] eqn:Hp; [|done]. injection Hdt as ->.
  rewrite bonus_get_step in H. unfold datetime.add_hours in H.
  destruct (_ && _); [|done]. injection H as <-. by exists dt.
Qed.

Lemma score_all_spec (events : list Event.t) (keyed : list (datetime.stamp * Event.t)) :
  score_all fromisoformat events = Returned keyed ->
  map snd keyed = events /\ Forall (fun ke => score ke.2 = Returned ke.1) keyed.
Proof.
  revert keyed. induction events as [|e events IH]; intros keyed; simpl.
  - intros [= <-]. split; [done|constructor].
  - intros (k & Hk & (ks & Hks & [= <-])%bind_Returned)%bind_Returned.
    destruct (IH _ Hks) as [Hm Hf]. split; [simpl; by rewrite Hm|by constructor].
Qed.

Lemma score_ge_total (a b : datetime.stamp * Event.t) :
  score_ge a b = true \/ score_ge b a = true.
Proof. unfold score_ge. rewrite !Z.leb_le. lia. Qed.

Lemma score_ge_trans (a b c : datetime.stamp * Event.t) :
  score_ge a b = true -> score_ge b c = true -> score_ge a c = true.
Proof. unfold score_ge. rewrite !Z.leb_le. lia. Qed.

(** The first [n] events of the retention order against the rest. *)
Lemma sort_by_retention_spec (events sorted : list Event.t) (n : nat) :
  sort_by_retention fromisoformat events = Returned sorted ->
  sorted ≡ₚ events
  /\ forall kept evicted,
       kept ∈ take n sorted -> evicted ∈ drop n sorted ->
       exists sk se,
         score kept = Returned sk /\ score evicted = Returned se
         /\ datetime.instant se <= datetime.instant sk.
Proof.
  unfold sort_by_retention.
  intros (keyed & Hk & H)%bind_Returned.
  destruct (comparable _); [|done]. injection H as <-.
  apply score_all_spec in Hk as [Hm Hf].
  pose proof (sorted_perm score_ge keyed) as Hperm.
  split.
  - rewrite <- Hm. by apply Permutation_map.
  - intros kept evicted Hkept Hev.
    rewrite firstn_map in Hkept. rewrite skipn_map in Hev.
    apply list_elem_of_fmap in Hkept as ([sk kept'] & -> & Hkept).
    apply list_elem_of_fmap in Hev as ([se ev'] & -> & Hev).
    pose proof (sorted_ordered score_ge score_ge_total score_ge_trans keyed) as Hord.
    rewrite <- (take_drop n (Py.sorted score_ge keyed)) in Hord.
    pose proof (StronglySorted_app_1_elem_of _ _ _ _ _ Hord Hkept Hev) as Hge.
    simpl in Hge. unfold score_ge in Hge. simpl in Hge. apply Z.leb_le in Hge.
    assert (forall ke, ke ∈ Py.sorted score_ge keyed -> score ke.2 = Returned ke.1) as Hsc.
    { intros ke Hin. rewrite Hperm in Hin. rewrite Forall_forall in Hf. by apply Hf. }
    exists sk, se. simpl. split_and!; [| |done].
    + apply (Hsc (sk, kept')). rewrite <- (take_drop n (Py.sorted score_ge keyed)).
      apply elem_of_app. by left.
    + apply (Hsc (se, ev')). rewrite <- (take_drop n (Py.sorted score_ge keyed)).
      apply elem_of_app. by right.
Qed.

End RetentionFacts.

(** * Strings that are hashed *)

Lemma append_assoc (a b c : string) : (a +:+ b) +:+ c = a +:+ b +:+ c.
Proof. induction a as [|x a IH]; [done|]. by rewrite !append_cons, IH. Qed.

Lemma has_char_append (c : ascii) (a b : string) :
  Py.has_char c (a +:+ b) = Py.has_char c a || Py.has_char c b.
Proof.
  induction a as [|x a IH]; [done|]. rewrite append_cons. simpl. rewrite IH.
  by rewrite orb_assoc.
Qed.

Lemma bar_free_append (a b : string) : bar_free a -> bar_free b -> bar_free (a +:+ b).
Proof. unfold bar_free. rewrite has_char_append. by intros -> ->. Qed.

(** Two strings cut at their last bar agree piece by piece. *)
Lemma split_at_last_bar (a a' t t' : string) :
  bar_free t -> bar_free t' ->
  a +:+ String bar t = a' +:+ String bar t' -> a = a' /\ t = t'.
Proof.
  unfold bar_free. intros Ht Ht'. revert a'.
  induction a as [|x a IH]; intros [|x' a']; rewrite ?append_cons, ?append_nil_l.
  - by intros [= ->].
  - intros [= <- ->]. rewrite has_char_append in Ht. simpl in Ht.
    by rewrite orb_true_r in Ht.
  - intros [= -> <-]. rewrite has_char_append in Ht'. simpl in Ht'.
    by rewrite orb_true_r in Ht'.
  - intros [= -> H]. destruct (IH _ H) as [-> ->]. done.
Qed.

Lemma append_inj_length (a a' t t' : string) :
  String.length a = String.length a' -> a +:+ t = a' +:+ t' -> a = a' /\ t = t'.
Proof.
  revert a'. induction a as [|x a IH]; intros [|x' a']; simpl; try done.
  intros [= Hl]. rewrite !append_cons. intros [= -> H]. by destruct (IH _ Hl H) as [-> ->].
Qed.

Lemma length_append (a b : string) :
  String.length (a +:+ b) = (String.length a + String.length b)%nat.
Proof. induction a as [|x a IH]; [done|]. rewrite append_cons. simpl. by rewrite IH. Qed.

(** ** Digits *)

Lemma digit_inj (a b : Z) :
  0 <= a < 10 -> 0 <= b < 10 ->
  ascii_of_N (48 + Z.to_N a) = ascii_of_N (48 + Z.to_N b) -> a = b.
Proof.
  intros Ha Hb H. apply (f_equal N_of_ascii) in H.
  rewrite !N_ascii_embedding in H by lia. lia.
Qed.

Lemma digit_not_bar (n : Z) : Ascii.eqb (ascii_of_N (48 + Z.to_N (n mod 10))) bar = false.
Proof.
  apply Ascii.eqb_neq. intros H. apply (f_equal N_of_ascii) in H.
  assert (0 <= n mod 10 < 10) by (apply Z.mod_pos_bound; lia).
  rewrite N_ascii_embedding in H by lia. vm_compute N_of_ascii in H. lia.
Qed.

Lemma pad_bar_free (width : nat) (n : Z) : bar_free (datetime.pad width n).
Proof.
  revert n. induction width as [|w IH]; intros n; simpl; [done|].
  apply bar_free_append; [apply IH|]. unfold bar_free. simpl.
  unfold datetime.digit. by rewrite digit_not_bar.
Qed.

Lemma pad_length (width : nat) (n : Z) : String.length (datetime.pad width n) = width.
Proof.
  revert n. induction width as [|w IH]; intros n; simpl; [done|].
  rewrite length_append, IH. simpl. lia.
Qed.

Lemma pad_inj (width : nat) (n n' : Z) :
  0 <= n < 10 ^ Z.of_nat width -> 0 <= n' < 10 ^ Z.of_nat width ->
  datetime.pad width n = datetime.pad width n' -> n = n'.
Proof.
  revert n n'. induction width as [|w IH]; intros n n' Hn Hn'.
  - simpl in *. lia.
  - rewrite Nat2Z.inj_succ, Z.pow_succ_r in Hn, Hn' by lia.
    simpl. intros H.
    apply append_inj_length in H as [H1 H2]; [|by rewrite !pad_length].
    injection H2 as H2. unfold datetime.digit in H2.
    apply digit_inj in H2; [|apply Z.mod_pos_bound; lia..].
    apply IH in H1; [|split; [apply Z.div_pos; lia|apply Z.div_lt_upper_bound; lia]..].
    rewrite (Z.div_mod n 10), (Z.div_mod n' 10) by lia. congruence.
Qed.

Lemma uint_bar_free (d : Decimal.uint) : bar_free (NilEmpty.string_of_uint d).
Proof. induction d; simpl; done. Qed.

Lemma decimal_bar_free (n : Z) : bar_free (PyNum.decimal n).
Proof.
  unfold PyNum.decimal, NilZero.string_of_uint.
  destruct (N.to_uint (Z.to_N n)) eqn:E; try done; rewrite <- E; apply uint_bar_free.
Qed.

Lemma format_2f_bar_free (x : float) : bar_free (PyNum.format_2f x).
Proof.
  unfold PyNum.format_2f. destruct (Prim2SF x) as [[]|[]| |s m e]; try done.
  apply bar_free_append; [by destruct s|].
  apply bar_free_append; [apply decimal_bar_free|].
  apply bar_free_append; [done|].
  unfold PyNum.two_digits, bar_free. simpl. by rewrite !digit_not_bar.
Qed.

Lemma format_offset_bar_free (off : option Z) : bar_free (datetime.format_offset off).
Proof.
  destruct off as [off|]; [|done]. unfold datetime.format_offset.
  repeat first
    [ apply pad_bar_free
    | apply bar_free_append
    | match goal with |- bar_free (if ?b then _ else _) => destruct b end
    | done ].
Qed.

Lemma isoformat_bar_free (dt : datetime.t) : bar_free (datetime.isoformat dt).
Proof.
  unfold datetime.isoformat.
  repeat first
    [ apply pad_bar_free
    | apply format_offset_bar_free
    | apply bar_free_append
    | match goal with |- bar_free (if ?b then _ else _) => destruct b end
    | done ].
Qed.

(** The hashed string determines its four fields. *)
Lemma incident_content_inj (category category' : string) (x y x' y' : float)
    (bucket bucket' : datetime.t) :
  incident_content category x y bucket = incident_content category' x' y' bucket' ->
  category = category'
  /\ PyNum.format_2f x = PyNum.format_2f x'
  /\ PyNum.format_2f y = PyNum.format_2f y'
  /\ datetime.isoformat bucket = datetime.isoformat bucket'.
Proof.
  unfold incident_content. intros H.
  change "|"%string with (String bar EmptyString) in H.
  rewrite <- !append_assoc in H. rewrite !(append_assoc _ (String bar EmptyString)) in H.
  rewrite !append_cons, !append_nil_l in H.
  apply split_at_last_bar in H as [H Hb]; [|apply isoformat_bar_free..].
  apply split_at_last_bar in H as [H Hy]; [|apply format_2f_bar_free..].
  apply split_at_last_bar in H as [H Hx]; [|apply format_2f_bar_free..].
  done.
Qed.

(** ** The printed time bucket *)

Lemma string_tail_eq (c : ascii) (s s' : string) : String c s = String c s' -> s = s'.
Proof. congruence. Qed.

Lemma offset_parts (a : Z) :
  0 <= a ->
  a = a / 3600000000 * 3600000000 + a mod 3600000000 / 60000000 * 60000000
      + a mod 60000000 / 1000000 * 1000000 + a mod 1000000.
Proof. intros. Z.to_euclidean_division_equations. lia. Qed.

Lemma offset_ranges (a : Z) :
  0 <= a < 86400000000 ->
  0 <= a / 3600000000 < 10 ^ 2 /\ 0 <= a mod 3600000000 / 60000000 < 10 ^ 2
  /\ 0 <= a mod 60000000 / 1000000 < 10 ^ 2 /\ 0 <= a mod 1000000 < 10 ^ 6.
Proof. intros. Z.to_euclidean_division_equations. lia. Qed.

Lemma offset_digits_inj (a a' : Z) :
  0 <= a < 86400000000 -> 0 <= a' < 86400000000 ->
  offset_digits a = offset_digits a' -> a = a'.
Proof.
  intros Ha Ha'. unfold offset_digits.
  destruct (offset_ranges a Ha) as (Hh & Hm & Hs & Hu).
  destruct (offset_ranges a' Ha') as (Hh' & Hm' & Hs' & Hu').
  intros H.
  apply append_inj_length in H as [Ehh H]; [|by rewrite !pad_length].
  apply (pad_inj 2) in Ehh; [|done..].
  rewrite !append_cons, !append_nil_l in H. apply string_tail_eq in H.
  apply append_inj_length in H as [Emm H]; [|by rewrite !pad_length].
  apply (pad_inj 2) in Emm; [|done..].
  assert (a mod 60000000 / 1000000 = a' mod 60000000 / 1000000
          /\ a mod 1000000 = a' mod 1000000) as [Ess Eus].
  { destruct (Z.eqb_spec (a mod 60000000 / 1000000) 0) as [Es|Es];
      destruct (Z.eqb_spec (a mod 1000000) 0) as [Eu|Eu];
      destruct (Z.eqb_spec (a' mod 60000000 / 1000000) 0) as [Es'|Es'];
      destruct (Z.eqb_spec (a' mod 1000000) 0) as [Eu'|Eu'];
      cbn [andb] in H; rewrite ?append_cons, ?append_nil_l in H;
      try discriminate H; try (split; congruence);
      try (apply string_tail_eq in H;
           apply append_inj_length in H as [Ess H]; [|by rewrite !pad_length];
           apply (pad_inj 2) in Ess; [|done..];
           rewrite ?append_cons, ?append_nil_l in H;
           first [ discriminate H
                 | split; congruence
                 | apply string_tail_eq in H; apply (pad_inj 6) in H; [|done..];
                   split; congruence ]).
  }
  rewrite (offset_parts a), (offset_parts a') by lia. congruence.
Qed.

Lemma format_offset_digits (o : Z) :
  datetime.format_offset (Some o)
  = (if o <? 0 then "-" else "+") +:+ offset_digits (Z.abs o).
Proof. reflexivity. Qed.

Lemma format_offset_inj (off off' : option Z) :
  match off with Some o => - datetime.day_micros < o < datetime.day_micros | None => True end ->
  match off' with Some o => - datetime.day_micros < o < datetime.day_micros | None => True end ->
  datetime.format_offset off = datetime.format_offset off' -> off = off'.
Proof.
  unfold datetime.day_micros.
  destruct off as [o|], off' as [o'|]; intros Ho Ho'; try done.
  - rewrite !format_offset_digits.
    destruct (Z.ltb_spec o 0) as [Hn|Hn], (Z.ltb_spec o' 0) as [Hn'|Hn'];
      rewrite !append_cons, !append_nil_l; intros H;
      try discriminate H; apply string_tail_eq in H;
      apply offset_digits_inj in H; try lia; f_equal; lia.
  - rewrite format_offset_digits. by destruct (o <? 0).
  - rewrite format_offset_digits. by destruct (o' <? 0).
Qed.

(** Two valid values that lie on a bucket boundary print alike only when
    they are equal. *)
Lemma isoformat_bucket_inj (b b' : datetime.t) :
  datetime.valid b -> datetime.valid b' ->
  datetime.isoformat (time_bucket b) = datetime.isoformat (time_bucket b') ->
  time_bucket b = time_bucket b'.
Proof.
  intros (Hy & Hm & Hd & Hh & _ & _ & _ & Ho) (Hy' & Hm' & Hd' & Hh' & _ & _ & _ & Ho').
  assert (forall y m, datetime.days_in_month y m <= 31) as Hdim.
  { intros y m. unfold datetime.days_in_month.
    repeat match goal with |- context [if ?c then _ else _] => destruct c end; lia. }
  pose proof (Hdim (datetime.year b) (datetime.month b)) as Hd31.
  pose proof (Hdim (datetime.year b') (datetime.month b')) as Hd31'.
  unfold datetime.isoformat, time_bucket. cbn [datetime.year datetime.month datetime.day
    datetime.hour datetime.minute datetime.second datetime.microsecond datetime.tzinfo].
  cbn [Z.eqb]. rewrite !append_nil_l.
  intros H.
  rewrite !append_cons, !append_nil_l in H.
  apply append_inj_length in H as [Ey H]; [|by rewrite !pad_length].
  apply (pad_inj 4) in Ey; [|simpl; lia..].
  apply string_tail_eq in H.
  apply append_inj_length in H as [Em H]; [|by rewrite !pad_length].
  apply (pad_inj 2) in Em; [|simpl; lia..].
  apply string_tail_eq in H.
  apply append_inj_length in H as [Ed H]; [|by rewrite !pad_length].
  apply (pad_inj 2) in Ed; [|simpl; lia..].
  apply string_tail_eq in H.
  apply append_inj_length in H as [Eh H]; [|by rewrite !pad_length].
  apply (pad_inj 2) in Eh;
    [|simpl; Z.to_euclidean_division_equations; lia..].
  apply string_tail_eq in H.
  apply append_inj_length in H as [_ H]; [|by rewrite !pad_length].
  apply string_tail_eq in H.
  apply append_inj_length in H as [_ H]; [|by rewrite !pad_length].
  apply format_offset_inj in H; [|done..].
  by rewrite Ey, Em, Ed, Eh, H.
Qed.

(** * Grid cells *)

Lemma grid_cell (x : float) (category : string) :
  grid x (get_grouping_distance category)
  = cell x category ≫= fun k => cell_corner k (get_grouping_distance category).
Proof. reflexivity. Qed.

Lemma cells_complete (k : Z) : cell_in_range k -> k ∈ cells.
Proof.
  unfold cell_in_range, cells. intros Hk.
  apply list_elem_of_fmap. exists (Z.to_nat (k + 1800)).
  split; [lia|]. apply list_elem_of_In, in_seq. lia.
Qed.

Lemma cells_print_back (distance : float) :
  distance ∈ [0.1%float; 0.3%float; 0.5%float] ->
  forallb (cell_prints_back distance) cells = true.
Proof.
  rewrite !elem_of_cons. intros [->|[->|[->|?%elem_of_nil]]]; [| |  |done];
    vm_compute; reflexivity.
Qed.

Lemma get_grouping_distance_cases (category : string) :
  get_grouping_distance category ∈ [0.1%float; 0.3%float; 0.5%float].
Proof.
  unfold get_grouping_distance, GROUPING_DISTANCE_DEGREES. cbn [Py.dict_get].
  repeat match goal with
         | |- context [String.eqb ?k category] => destruct (String.eqb k category)
         end; simpl; set_solver.
Qed.

Lemma cell_corner_returns (category : string) (k : Z) :
  cell_in_range k ->
  exists g,
    cell_corner k (get_grouping_distance category) = Returned g
    /\ hundredths (PyNum.format_2f g)
       = k * cell_hundredths (get_grouping_distance category)
    /\ cell_hundredths (get_grouping_distance category) <> 0.
Proof.
  intros Hk.
  pose proof (cells_print_back _ (get_grouping_distance_cases category)) as H.
  rewrite forallb_forall in H. specialize (H k).
  unfold cell_prints_back in H.
  destruct (cell_corner k (get_grouping_distance category)) as [g|e].
  - exists g. split_and!; [done| |].
    + apply Z.eqb_eq, H. by apply list_elem_of_In, cells_complete.
    + pose proof (get_grouping_distance_cases category) as Hd.
      rewrite !elem_of_cons in Hd.
      destruct Hd as [->|[->|[->|?%elem_of_nil]]]; [| | |done]; vm_compute; discriminate.
  - discriminate H. by apply list_elem_of_In, cells_complete.
Qed.

Section IncidentIdFacts.

Variable sha256_hex16 : string -> string.
Variable fromisoformat : string -> option datetime.t.

Local Abbreviation generate_id := (generate_incident_id sha256_hex16 fromisoformat).
Local Abbreviation collision_free := (collision_free sha256_hex16).
Local Abbreviation parses_valid := (parses_valid fromisoformat).

Lemma generate_incident_id_returns (category : string) (lng lat : float)
    (timestamp : string) (k_lng k_lat : Z) (dt : datetime.t) :
  cell lng category = Returned k_lng -> cell lat category = Returned k_lat ->
  cell_in_range k_lng -> cell_in_range k_lat ->
  fromisoformat (utc_suffix timestamp) = Some dt ->
  exists g_lng g_lat,
    cell_corner k_lng (get_grouping_distance category) = Returned g_lng
    /\ cell_corner k_lat (get_grouping_distance category) = Returned g_lat
    /\ generate_id category lng lat timestamp
       = Returned (sha256_hex16 (incident_content category g_lng g_lat (time_bucket dt))).
Proof.
  intros Hlng Hlat Hr1 Hr2 Hp.
  destruct (cell_corner_returns category k_lng Hr1) as (g1 & Hg1 & _).
  destruct (cell_corner_returns category k_lat Hr2) as (g2 & Hg2 & _).
  exists g1, g2. split_and!; [done..|].
  unfold generate_incident_id. rewrite !grid_cell, Hlng, Hlat. simpl.
  rewrite Hg1, Hg2. simpl. unfold parse_timestamp. by rewrite Hp.
Qed.

Lemma generate_incident_id_same (category category' : string) (lng lat lng' lat' : float)
    (timestamp timestamp' : string) (k_lng k_lat k_lng' k_lat' : Z) (dt dt' : datetime.t) :
  collision_free -> parses_valid ->
  cell lng category = Returned k_lng -> cell lat category = Returned k_lat ->
  cell lng' category' = Returned k_lng' -> cell lat' category' = Returned k_lat' ->
  cell_in_range k_lng -> cell_in_range k_lat ->
  cell_in_range k_lng' -> cell_in_range k_lat' ->
  fromisoformat (utc_suffix timestamp) = Some dt ->
  fromisoformat (utc_suffix timestamp') = Some dt' ->
  exists id id',
    generate_id category lng lat timestamp = Returned id
    /\ generate_id category' lng' lat' timestamp' = Returned id'
    /\ (id = id' <->
        category = category' /\ k_lng = k_lng' /\ k_lat = k_lat'
        /\ time_bucket dt = time_bucket dt').
Proof.
  intros Hinj Hvalid Hlng Hlat Hlng' Hlat' Hr1 Hr2 Hr1' Hr2' Hp Hp'.
  destruct (generate_incident_id_returns _ _ _ _ _ _ _ Hlng Hlat Hr1 Hr2 Hp)
    as (g1 & g2 & Hg1 & Hg2 & ->).
  destruct (generate_incident_id_returns _ _ _ _ _ _ _ Hlng' Hlat' Hr1' Hr2' Hp')
    as (g1' & g2' & Hg1' & Hg2' & ->).
  eexists _, _. split_and!; [done..|]. split.
  - intros Hid. apply Hinj, incident_content_inj in Hid as (<- & Hf1 & Hf2 & Hiso).
    destruct (cell_corner_returns category k_lng Hr1) as (x1 & E1 & Hh1 & Hne).
    destruct (cell_corner_returns category k_lat Hr2) as (x2 & E2 & Hh2 & _).
    destruct (cell_corner_returns category k_lng' Hr1') as (x1' & E1' & Hh1' & _).
    destruct (cell_corner_returns category k_lat' Hr2') as (x2' & E2' & Hh2' & _).
    rewrite Hg1 in E1. rewrite Hg2 in E2. rewrite Hg1' in E1'. rewrite Hg2' in E2'.
    injection E1 as <-. injection E2 as <-. injection E1' as <-. injection E2' as <-.
    rewrite Hf1 in Hh1. rewrite Hf2 in Hh2.
    split_and!; [done| | |].
    + apply (Z.mul_cancel_r _ _ _ Hne). congruence.
    + apply (Z.mul_cancel_r _ _ _ Hne). congruence.
    + apply isoformat_bucket_inj; [by eapply Hvalid..|done].
  - intros (<- & <- & <- & Hb). rewrite Hb. congruence.
Qed.

End IncidentIdFacts.

(** * The parser instance returns valid values *)

Lemma valid_b_spec (dt : datetime.t) : valid_b dt = true -> datetime.valid dt.
Proof.
  unfold valid_b, datetime.valid. rewrite !andb_true_iff.
  destruct (datetime.tzinfo dt) as [off|].
  - rewrite !andb_true_iff. lia.
  - lia.
Qed.

Lemma fromisoformat_utc_valid : parses_valid fromisoformat_utc.
Proof.
  intros s dt. unfold fromisoformat_utc.
  destruct (_ && _); [|discriminate].
  destruct (field s 0 4) as [y|]; [|discriminate].
  destruct (field s 5 2) as [m|]; [|discriminate].
  destruct (field s 8 2) as [d|]; [|discriminate].
  destruct (field s 11 2) as [h|]; [|discriminate].
  destruct (field s 14 2) as [mi|]; [|discriminate].
  destruct (field s 17 2) as [se|]; [|discriminate].
  cbn. destruct (valid_b _) eqn:Hv; [|discriminate].
  intros [= <-]. by apply valid_b_spec.
Qed.

Lemma plain_digest_collision_free : collision_free plain_digest.
Proof. by intros s s' H. Qed.

(** * Synthesis fallback *)

(** C1. When the synthesis call fails for a non-empty group, the fields that
    [process_articles] stores are the cleaned headline and the cleaned summary
    of the source that sorts first by descending credibility and then by
    timestamp, an empty fallout prediction, and the severity 5, whatever the
    severities recorded in the group. *)
Theorem synthesize_incident_fallback_is_five (client : generate) (group : IncidentGroup.t) :
  IncidentGroup.sources group <> [] ->
  client (sort_sources (IncidentGroup.sources group)) = None ->
  exists src,
    src ∈ IncidentGroup.sources group
    /\ Forall (fun s => source_le src s = true) (IncidentGroup.sources group)
    /\ synthesized_fields client group
       = Returned (_clean_text (EventSource.headline src),
                   _clean_text (EventSource.summary src), 5, EmptyString).
Proof.
  intros Hne Hfail.
  destruct (synthesize_incident_fallback client _ Hne Hfail) as (src & Hin & Hmin & Hret).
  exists src. split_and!; [done..|].
  unfold synthesized_fields. by rewrite Hret.
Qed.

Lemma synthesize_incident_fallback_is_five_witness :
  IncidentGroup.sources sample_group <> []
  /\ failing_client (sort_sources (IncidentGroup.sources sample_group)) = None
  /\ IncidentGroup.get_max_severity sample_group = 8
  /\ exists src,
       synthesized_fields failing_client sample_group
       = Returned (_clean_text (EventSource.headline src),
                   _clean_text (EventSource.summary src), 5, EmptyString).
Proof.
  split; [discriminate|]. split; [reflexivity|]. split; [vm_compute; reflexivity|].
  destruct (synthesize_incident_fallback_is_five failing_client sample_group)
    as (src & _ & _ & H); [discriminate|reflexivity|].
  by exists src.
Defined.

(** * Credibility and the filter of [group_by_incident] *)




(** * Grouping *)

(** C5. Adding one article of non-negative credibility at the end of a batch
    is one step on the groups of the batch. The step attaches the article to
    the first group, in list order, of the same category, whose centroid is no
    further from the article than the radius of the category, and one of whose
    sources is within the time window of the article; the centroid becomes the
    running mean and the source goes last. When no group fits, a group with
    the article as its only source is added at the end. The radii are 0.1 for
    MILITARY, 0.3 for UNREST and 0.5 for every other category, and the window
    is 12 hours. *)
Theorem group_by_incident_first_fit (sha256_hex16 : string -> string)
    (fromisoformat : string -> option datetime.t)
    (xs : list (Article.t * EnrichedArticle.t)) (article : Article.t)
    (enriched : EnrichedArticle.t) (groups groups' : list IncidentGroup.t) :
  group_by_incident sha256_hex16 fromisoformat xs = Returned groups ->
  0 <= get_source_credibility (Article.source_name article) ->
  group_step sha256_hex16 fromisoformat groups (article, enriched) = Returned groups' ->
  let category := EnrichedArticle.category enriched in
  let lng := EnrichedArticle.longitude enriched in
  let lat := EnrichedArticle.latitude enriched in
  let timestamp := Article.publishedAt article in
  let source := make_source sha256_hex16 article enriched in
  group_by_incident sha256_hex16 fromisoformat (xs ++ [(article, enriched)])
  = Returned groups'
  /\ ((exists i group,
          groups !! i = Some group
          /\ fits fromisoformat group category lng lat timestamp
          /\ (forall j earlier, (j < i)%nat -> groups !! j = Some earlier ->
                                ~ fits fromisoformat earlier category lng lat timestamp)
          /\ groups' = <[i := attached sha256_hex16 group article enriched]> groups
          /\ let n1 := PyNum.float_of_len (length (IncidentGroup.sources group)) in
             let n := PyNum.float_of_len (length (IncidentGroup.sources group) + 1) in
             let group' := attached sha256_hex16 group article enriched in
             IncidentGroup.lng group' = ((IncidentGroup.lng group * n1 + lng) / n)%float
             /\ IncidentGroup.lat group' = ((IncidentGroup.lat group * n1 + lat) / n)%float
             /\ IncidentGroup.sources group' = IncidentGroup.sources group ++ [source])
      \/ (Forall (fun group => ~ fits fromisoformat group category lng lat timestamp) groups
          /\ groups' = groups ++ [founded sha256_hex16 article enriched]
          /\ IncidentGroup.sources (founded sha256_hex16 article enriched) = [source]
          /\ IncidentGroup.category (founded sha256_hex16 article enriched) = category))
  /\ get_grouping_distance "MILITARY" = 0.1%float
  /\ get_grouping_distance "UNREST" = 0.3%float
  /\ get_grouping_distance "DIPLOMACY" = 0.5%float
  /\ get_grouping_distance "ECONOMY" = 0.5%float
  /\ (forall other, other ∉ ["MILITARY"; "UNREST"; "DIPLOMACY"; "ECONOMY"] ->
                    get_grouping_distance other = 0.5%float)
  /\ GROUPING_TIME_HOURS = 12.
Proof.
  intros Hxs Hcred Hstep category lng lat timestamp source.
  split; [|split].
  - rewrite group_by_incident_snoc, Hxs. exact Hstep.
  - destruct (group_step_first_fit _ _ _ _ _ _ Hcred Hstep)
      as [(i & group & Hi & Hfits & Hfirst & ->)|[Hnone ->]].
    + left. exists i, group. split_and!; [done..|].
      destruct (add_source_centroid group source (EnrichedArticle.severity enriched) lng lat)
        as (Hlng & Hlat & Hsources & _).
      by split_and!.
    + right. by split_and!.
  - destruct (get_grouping_distance_table "") as (? & ? & ? & ? & _).
    split_and!; [done..| |reflexivity].
    intros other Hother. by apply (get_grouping_distance_table other).
Qed.

Lemma group_by_incident_first_fit_witness :
  group_by_incident plain_digest fromisoformat_utc sample_batch = Returned sample_groups
  /\ 0 <= get_source_credibility (Article.source_name kyiv_followup)
  /\ group_step plain_digest fromisoformat_utc sample_groups
       (kyiv_followup, kyiv_followup_facts) = Returned sample_groups_after
  /\ group_by_incident plain_digest fromisoformat_utc
       (sample_batch ++ [(kyiv_followup, kyiv_followup_facts)])
     = Returned sample_groups_after.
Proof.
  assert (H1 : group_by_incident plain_digest fromisoformat_utc sample_batch
               = Returned sample_groups) by (vm_compute; reflexivity).
  assert (H2 : 0 <= get_source_credibility (Article.source_name kyiv_followup))
    by (vm_compute; discriminate).
  assert (H3 : group_step plain_digest fromisoformat_utc sample_groups
                 (kyiv_followup, kyiv_followup_facts) = Returned sample_groups_after)
    by (vm_compute; reflexivity).
  split; [exact H1|]. split; [exact H2|]. split; [exact H3|].
  exact (proj1 (group_by_incident_first_fit plain_digest fromisoformat_utc sample_batch
                  kyiv_followup kyiv_followup_facts sample_groups sample_groups_after
                  H1 H2 H3)).
Defined.

(** * Incident ids *)

(** C6. For two calls whose timestamps parse and whose coordinates fall in
    grid cells of index at most 1800 either way, both calls return, and with
    a digest that separates its inputs the two ids are equal exactly when the
    categories are equal, the longitudes fall in the same cell, the latitudes
    fall in the same cell, and the timestamps fall in the same 12-hour
    bucket. The quantized coordinate is the index of the cell times the
    radius of the category. *)
Theorem generate_incident_id_cells (sha256_hex16 : string -> string)
    (fromisoformat : string -> option datetime.t)
    (category category' : string) (lng lat lng' lat' : float)
    (timestamp timestamp' : string) (k_lng k_lat k_lng' k_lat' : Z) (dt dt' : datetime.t) :
  collision_free sha256_hex16 -> parses_valid fromisoformat ->
  cell lng category = Returned k_lng -> cell lat category = Returned k_lat ->
  cell lng' category' = Returned k_lng' -> cell lat' category' = Returned k_lat' ->
  cell_in_range k_lng -> cell_in_range k_lat ->
  cell_in_range k_lng' -> cell_in_range k_lat' ->
  fromisoformat (utc_suffix timestamp) = Some dt ->
  fromisoformat (utc_suffix timestamp') = Some dt' ->
  grid lng (get_grouping_distance category)
  = cell_corner k_lng (get_grouping_distance category)
  /\ grid lat (get_grouping_distance category)
     = cell_corner k_lat (get_grouping_distance category)
  /\ exists id id',
       generate_incident_id sha256_hex16 fromisoformat category lng lat timestamp
       = Returned id
       /\ generate_incident_id sha256_hex16 fromisoformat category' lng' lat' timestamp'
          = Returned id'
       /\ (id = id' <->
           category = category' /\ k_lng = k_lng' /\ k_lat = k_lat'
           /\ time_bucket dt = time_bucket dt').
Proof.
  intros Hfree Hvalid Hlng Hlat Hlng' Hlat' R1 R2 R3 R4 Hdt Hdt'.
  split_and!.
  - by rewrite grid_cell, Hlng.
  - by rewrite grid_cell, Hlat.
  - by apply (generate_incident_id_same sha256_hex16 fromisoformat category category'
                lng lat lng' lat' timestamp timestamp' k_lng k_lat k_lng' k_lat' dt dt').
Qed.

Lemma generate_incident_id_cells_witness :
  cell 30.5234%float "MILITARY" = Returned 305
  /\ cell 50.4501%float "MILITARY" = Returned 505
  /\ cell 30.53%float "MILITARY" = Returned 305
  /\ cell 50.46%float "MILITARY" = Returned 505
  /\ fromisoformat_utc (utc_suffix "2026-01-21T12:00:00Z") = Some kyiv_noon
  /\ fromisoformat_utc (utc_suffix "2026-01-21T15:00:00Z") = Some kyiv_afternoon
  /\ exists id,
       generate_incident_id plain_digest fromisoformat_utc "MILITARY"
         30.5234%float 50.4501%float "2026-01-21T12:00:00Z" = Returned id
       /\ generate_incident_id plain_digest fromisoformat_utc "MILITARY"
            30.53%float 50.46%float "2026-01-21T15:00:00Z" = Returned id.
Proof.
  assert (C1 : cell 30.5234%float "MILITARY" = Returned 305) by (vm_compute; reflexivity).
  assert (C2 : cell 50.4501%float "MILITARY" = Returned 505) by (vm_compute; reflexivity).
  assert (C3 : cell 30.53%float "MILITARY" = Returned 305) by (vm_compute; reflexivity).
  assert (C4 : cell 50.46%float "MILITARY" = Returned 505) by (vm_compute; reflexivity).
  assert (T1 : fromisoformat_utc (utc_suffix "2026-01-21T12:00:00Z") = Some kyiv_noon)
    by (vm_compute; reflexivity).
  assert (T2 : fromisoformat_utc (utc_suffix "2026-01-21T15:00:00Z") = Some kyiv_afternoon)
    by (vm_compute; reflexivity).
  do 6 (split; [assumption|]).
  destruct (generate_incident_id_cells plain_digest fromisoformat_utc
              "MILITARY" "MILITARY" 30.5234%float 50.4501%float 30.53%float 50.46%float
              "2026-01-21T12:00:00Z" "2026-01-21T15:00:00Z" 305 505 305 505
              kyiv_noon kyiv_afternoon
              plain_digest_collision_free fromisoformat_utc_valid C1 C2 C3 C4)
    as (_ & _ & id & id' & Hid & Hid' & Hsame);
    [unfold cell_in_range; lia..|exact T1|exact T2|].
  exists id. split; [exact Hid|].
  rewrite Hid'. f_equal. symmetry. apply Hsame.
  split; [reflexivity|]. split; [reflexivity|]. split; [reflexivity|].
  vm_compute. reflexivity.
Defined.

(** * Deduplication *)

Lemma title_hash_empty (md5_hex16 : string -> string) (title : string) :
  _extract_keywords title = ∅ -> _title_hash md5_hex16 title = md5_hex16 EmptyString.
Proof.
  intros H. unfold _title_hash. cbn zeta. rewrite H, elements_empty. reflexivity.
Qed.

Lemma dedupe_loop_after_empty (md5_hex16 : string -> string) (similarity_threshold : float)
    (st : seen) (xs : list Article.t) :
  md5_hex16 EmptyString ∈ seen_title_hashes st ->
  Forall (fun a => _extract_keywords (Article.title a) <> ∅)
    (dedupe_loop md5_hex16 similarity_threshold st xs).
Proof.
  revert st. induction xs as [|a xs IH]; intros st Hseen.
  - constructor.
  - rewrite dedupe_loop_cons. destruct (skipped _ _ st a) eqn:Hskip.
    + by apply IH.
    + constructor.
      * intros Hempty. unfold skipped in Hskip.
        apply orb_false_iff in Hskip as [Hskip _].
        apply orb_false_iff in Hskip as [_ Hhash].
        apply bool_decide_eq_false in Hhash. apply Hhash.
        by rewrite (title_hash_empty _ _ Hempty).
      * apply IH. unfold remember. cbn. set_solver.
Qed.

Lemma dedupe_loop_one_empty (md5_hex16 : string -> string) (similarity_threshold : float)
    (st : seen) (xs : list Article.t) :
  (length (filter (fun a => _extract_keywords (Article.title a) = ∅)
             (dedupe_loop md5_hex16 similarity_threshold st xs)) <= 1)%nat.
Proof.
  revert st. induction xs as [|a xs IH]; intros st.
  - cbn. lia.
  - rewrite dedupe_loop_cons. destruct (skipped _ _ st a) eqn:Hskip; [apply IH|].
    rewrite filter_cons. destruct (decide _) as [Hempty|Hfull]; [|apply IH].
    assert (Hrest : Forall (fun a => _extract_keywords (Article.title a) <> ∅)
                      (dedupe_loop md5_hex16 similarity_threshold
                         (remember md5_hex16 st a) xs)).
    { apply dedupe_loop_after_empty. unfold remember. cbn.
      rewrite (title_hash_empty _ _ Hempty). set_solver. }
    induction Hrest as [|b l Hb _ IHl]; [cbn; lia|].
    rewrite filter_cons. by destruct (decide _).
Qed.


(** C8. The titles "Russia attack Ukraine border forces military" and
    "Russian attack Ukrainian border forces military" have the same keyword
    set, [titles_similar] at threshold 0.5 holds of them, and of two articles
    that carry them [dedupe_articles] keeps only the first, whatever their
    other fields. *)
Theorem dedupe_russia_ukraine_titles (md5_hex16 : string -> string)
    (similarity_threshold : float) (description description' url url' publishedAt
      publishedAt' : string) (source_name source_name' : option string) :
  let title_a := "Russia attack Ukraine border forces military" in
  let title_b := "Russian attack Ukrainian border forces military" in
  let first := {| Article.title := title_a; Article.description := description;
                  Article.url := url; Article.source_name := source_name;
                  Article.publishedAt := publishedAt |} in
  let second := {| Article.title := title_b; Article.description := description';
                   Article.url := url'; Article.source_name := source_name';
                   Article.publishedAt := publishedAt' |} in
  _extract_keywords title_a = _extract_keywords title_b
  /\ titles_similar title_a title_b 0.5%float = true
  /\ dedupe_articles md5_hex16 similarity_threshold [first; second] = [first].
Proof.
  intros title_a title_b first second.
  assert (Hkw : _extract_keywords title_a = _extract_keywords title_b)
    by (vm_compute; reflexivity).
  split_and!.
  - exact Hkw.
  - vm_compute. reflexivity.
  - apply dedupe_pair_same_hash.
    change (_title_hash md5_hex16 title_a = _title_hash md5_hex16 title_b).
    unfold _title_hash. cbn zeta. by rewrite Hkw.
Qed.

(** C10. Two titles with empty keyword sets have the same title hash, the
    digest of the empty string, and of two articles with such titles
    [dedupe_articles] keeps only the first; of any list it keeps at most one
    article whose title has an empty keyword set. *)
Theorem dedupe_empty_keyword_titles (md5_hex16 : string -> string)
    (similarity_threshold : float) (a b : Article.t) :
  _extract_keywords (Article.title a) = ∅ ->
  _extract_keywords (Article.title b) = ∅ ->
  _title_hash md5_hex16 (Article.title a) = md5_hex16 EmptyString
  /\ _title_hash md5_hex16 (Article.title b) = md5_hex16 EmptyString
  /\ dedupe_articles md5_hex16 similarity_threshold [a; b] = [a]
  /\ forall xs,
       (length (filter (fun x => _extract_keywords (Article.title x) = ∅)
                  (dedupe_articles md5_hex16 similarity_threshold xs)) <= 1)%nat.
Proof.
  intros Ha Hb. split_and!.
  - by apply title_hash_empty.
  - by apply title_hash_empty.
  - apply dedupe_pair_same_hash. by rewrite !title_hash_empty.
  - intros xs. apply dedupe_loop_one_empty.
Qed.

Lemma dedupe_empty_keyword_titles_witness :
  _extract_keywords (Article.title short_title_a) = ∅
  /\ _extract_keywords (Article.title short_title_b) = ∅
  /\ _normalize_url (Article.url short_title_a) <> _normalize_url (Article.url short_title_b)
  /\ dedupe_articles plain_digest 0.6%float [short_title_a; short_title_b] = [short_title_a].
Proof.
  assert (Ha : _extract_keywords (Article.title short_title_a) = ∅)
    by (vm_compute; reflexivity).
  assert (Hb : _extract_keywords (Article.title short_title_b) = ∅)
    by (vm_compute; reflexivity).
  split; [exact Ha|]. split; [exact Hb|]. split; [vm_compute; discriminate|].
  exact (proj1 (proj2 (proj2 (dedupe_empty_keyword_titles plain_digest 0.6%float
                                short_title_a short_title_b Ha Hb)))).
Defined.

(** * Merging *)

Lemma merge_with_existing_inv (fromisoformat : string -> option datetime.t)
    (new_events : list GeoEvent.t) (existing_data : list Event.t)
    (gemini_client : option (nat -> generate)) (out : list Event.t) :
  merge_with_existing fromisoformat new_events existing_data gemini_client = Returned out ->
  exists all sorted,
    merged_events fromisoformat new_events existing_data gemini_client = Returned all
    /\ sort_by_retention fromisoformat all = Returned sorted
    /\ out = take MAX_EVENTS sorted.
Proof.
  unfold merge_with_existing. intros H.
  apply bind_Returned in H as (all & Hall & H).
  apply bind_Returned in H as (sorted & Hsorted & H).
  injection H as <-. by exists all, sorted.
Qed.

Lemma elem_of_all_source_ids (events : list Event.t) (x : string) :
  x ∈ all_source_ids events <-> x ∈ source_ids events.
Proof. unfold all_source_ids, source_ids. apply elem_of_list_to_set. Qed.

Lemma merged_events_NoDup (fromisoformat : string -> option datetime.t)
    (new_events : list GeoEvent.t) (existing_data : list Event.t)
    (gemini_client : option (nat -> generate)) (all : list Event.t) :
  merged_events fromisoformat new_events existing_data gemini_client = Returned all ->
  NoDup (source_ids existing_data) -> NoDup (source_ids all).
Proof.
  intros Hall Hnodup.
  destruct (merged_events_effect _ _ _ _ _ Hall)
    as (by_id & added & _ & _ & _ & Hperm & Hadded & Hfresh).
  rewrite Hperm. apply NoDup_app. split_and!.
  - eapply submseteq_NoDup; [|exact Hnodup].
    apply source_ids_submseteq, index_by_id_values.
  - intros x Hx Hx'. apply (Hfresh x Hx'). apply elem_of_all_source_ids.
    eapply elem_of_submseteq; [exact Hx|].
    apply source_ids_submseteq, index_by_id_values.
  - exact Hadded.
Qed.

Lemma merge_with_existing_NoDup (fromisoformat : string -> option datetime.t)
    (new_events : list GeoEvent.t) (existing_data : list Event.t)
    (gemini_client : option (nat -> generate)) (out : list Event.t) :
  merge_with_existing fromisoformat new_events existing_data gemini_client = Returned out ->
  NoDup (source_ids existing_data) -> NoDup (source_ids out).
Proof.
  intros Hout Hnodup.
  destruct (merge_with_existing_inv _ _ _ _ _ Hout) as (all & sorted & Hall & Hsorted & ->).
  destruct (sort_by_retention_spec _ _ _ MAX_EVENTS Hsorted) as [Hperm _].
  eapply submseteq_NoDup; [|exact (merged_events_NoDup _ _ _ _ _ Hall Hnodup)].
  apply source_ids_submseteq. rewrite <- Hperm.
  apply sublist_submseteq, sublist_take.
Qed.

(** C2. The source ids held by the merged events are those of the persisted
    events, each as often as before, and a list of added ids that has no
    repetition and shares no id with any persisted event; the returned events
    are among the merged ones. When no id occurs twice in the persisted set,
    none occurs twice in the returned set, within one event or across events,
    and the same holds after the returned set is merged again with any
    incoming events. *)
Theorem merge_with_existing_source_ids (fromisoformat : string -> option datetime.t)
    (new_events : list GeoEvent.t) (existing_data : list Event.t)
    (gemini_client : option (nat -> generate)) (out : list Event.t) :
  merge_with_existing fromisoformat new_events existing_data gemini_client = Returned out ->
  (exists all added,
      merged_events fromisoformat new_events existing_data gemini_client = Returned all
      /\ out ⊆+ all
      /\ source_ids all ≡ₚ source_ids (map snd (index_by_id existing_data)) ++ added
      /\ NoDup added
      /\ forall x, x ∈ added -> x ∉ source_ids existing_data)
  /\ (NoDup (source_ids existing_data) ->
      NoDup (source_ids out)
      /\ (forall e, e ∈ out -> NoDup (map EventSource.id (Event.sources e)))
      /\ forall new_events' gemini_client' out',
           merge_with_existing fromisoformat new_events' out gemini_client' = Returned out' ->
           NoDup (source_ids out')
           /\ forall e, e ∈ out' -> NoDup (map EventSource.id (Event.sources e))).
Proof.
  intros Hout. split.
  - destruct (merge_with_existing_inv _ _ _ _ _ Hout) as (all & sorted & Hall & Hsorted & ->).
    destruct (merged_events_effect _ _ _ _ _ Hall)
      as (by_id & added & _ & _ & _ & Hperm & Hadded & Hfresh).
    destruct (sort_by_retention_spec _ _ _ MAX_EVENTS Hsorted) as [Hsame _].
    exists all, added. split_and!; [done| |done|done|].
    + rewrite <- Hsame. apply sublist_submseteq, sublist_take.
    + intros x Hx Hx'. apply (Hfresh x Hx). by apply elem_of_all_source_ids.
  - intros Hnodup.
    pose proof (merge_with_existing_NoDup _ _ _ _ _ Hout Hnodup) as Hfirst.
    split_and!.
    + exact Hfirst.
    + intros e He. by apply (source_ids_NoDup_each out).
    + intros new_events' gemini_client' out' Hout'.
      pose proof (merge_with_existing_NoDup _ _ _ _ _ Hout' Hfirst) as Hsecond.
      split; [exact Hsecond|].
      intros e He. by apply (source_ids_NoDup_each out').
Qed.

Lemma merge_with_existing_source_ids_witness :
  merge_with_existing fromisoformat_utc [incoming_event] [persisted_event] None
  = Returned sample_merged
  /\ NoDup (source_ids [persisted_event])
  /\ merge_with_existing fromisoformat_utc [incoming_event] sample_merged None
     = Returned sample_merged_again
  /\ NoDup (source_ids sample_merged)
  /\ NoDup (source_ids sample_merged_again).
Proof.
  assert (H1 : merge_with_existing fromisoformat_utc [incoming_event] [persisted_event] None
               = Returned sample_merged) by (vm_compute; reflexivity).
  assert (H2 : NoDup (source_ids [persisted_event])).
  { change (NoDup ["a1"]). apply NoDup_singleton. }
  assert (H3 : merge_with_existing fromisoformat_utc [incoming_event] sample_merged None
               = Returned sample_merged_again) by (vm_compute; reflexivity).
  split; [exact H1|]. split; [exact H2|]. split; [exact H3|].
  destruct (proj2 (merge_with_existing_source_ids fromisoformat_utc [incoming_event]
                     [persisted_event] None sample_merged H1) H2)
    as (Hout & _ & Hagain).
  split; [exact Hout|]. exact (proj1 (Hagain _ _ _ H3)).
Defined.

(** C3. Take the event of the persisted set that is the last to carry its id.
    Any returned event with that id has a severity no lower, a [last_updated]
    (or, where the field is missing, the timestamp) no smaller in the order
    of strings, which is the order the code compares them in, and the same
    timestamp. *)
Theorem merge_with_existing_monotone (fromisoformat : string -> option datetime.t)
    (new_events : list GeoEvent.t) (pre post : list Event.t) (e e' : Event.t)
    (gemini_client : option (nat -> generate)) (out : list Event.t) :
  merge_with_existing fromisoformat new_events (pre ++ e :: post) gemini_client
  = Returned out ->
  Forall (fun later => Event.id later <> Event.id e) post ->
  e' ∈ out -> Event.id e' = Event.id e ->
  Event.severity e <= Event.severity e'
  /\ String.leb (Event.last_updated_or_timestamp e) (Event.last_updated_or_timestamp e') = true
  /\ Event.timestamp e' = Event.timestamp e.
Proof.
  intros Hout Hlast He' Hid.
  destruct (merge_with_existing_inv _ _ _ _ _ Hout) as (all & sorted & Hall & Hsorted & ->).
  destruct (merged_events_effect _ _ _ _ _ Hall)
    as (by_id & added & -> & Hext & Hkeyed & _).
  destruct (sort_by_retention_spec _ _ _ MAX_EVENTS Hsorted) as [Hsame _].
  pose proof (index_by_id_last pre post e Hlast) as Hin.
  destruct (extends_lookup _ _ _ _ Hext Hin) as (e1 & Hin1 & _ & Htime & Hsev & Hupd).
  assert (He'all : e' ∈ map snd by_id).
  { rewrite <- Hsame. eapply elem_of_submseteq; [exact He'|].
    apply sublist_submseteq, sublist_take. }
  rewrite (well_keyed_unique by_id (Event.id e) e1 e' Hkeyed Hin1 He'all Hid).
  by split_and!.
Qed.

Lemma merge_with_existing_monotone_witness :
  merge_with_existing fromisoformat_utc [incoming_event] ([] ++ persisted_event :: []) None
  = Returned sample_merged
  /\ (forall e', e' ∈ sample_merged -> Event.id e' = Event.id persisted_event ->
                 Event.severity persisted_event <= Event.severity e'
                 /\ Event.timestamp e' = Event.timestamp persisted_event).
Proof.
  assert (H1 : merge_with_existing fromisoformat_utc [incoming_event]
                 ([] ++ persisted_event :: []) None
               = Returned sample_merged) by (vm_compute; reflexivity).
  split; [exact H1|].
  intros e' He' Hid.
  destruct (merge_with_existing_monotone fromisoformat_utc [incoming_event] []
              [] persisted_event e' None sample_merged H1 (Forall_nil_2 _) He' Hid)
    as (Hsev & _ & Htime).
  split; [exact Hsev | exact Htime].
Defined.


